(** * StatMiner: data-source adapters, result validation and multi-provider chat

    A shallow embedding of the TypeScript sources

    - [src/lib/data/sources/types.ts]      (module [Types]),
    - [src/lib/data/sources/census.ts]     (module [Census]),
    - [src/lib/data/sources/fred.ts]       (module [Fred]),
    - [src/lib/data/sources/worldbank.ts]  (module [WorldBank]),
    - [src/lib/data/sources/index.ts]      (module [Sources]),
    - [src/lib/hooks/useChat.ts]           (module [Chat]),

    preceded by a model of the JavaScript run time they rely on (module
    [Js]) and followed by the notions of the specification (module
    [Spec]), sample inputs (modules [Samples] and [MoreSamples]), the
    convenience queries of the three adapters (module [Queries]), the
    run-time object of a typed result (module [Pipeline]), the caller of
    the chat hook, [MultiAgentChat.tsx] (module [MultiAgentChat]), the
    store it writes to, [src/lib/stores/chat-store.ts] (module
    [ChatStore]), and the properties established.

    Conventions.
    - Strings are byte strings.  Numbers are exact: integers are [Z],
      fractions are [Q], the result of [Number(...)] is a decimal
      [mantissa * 10 ^ exponent]; the rounding of IEEE doubles and the
      sign of zero are not modelled.
    - An [async] function is a function into [Js.Settled]: it fulfils with
      a value or rejects with what was thrown.
    - [Promise.allSettled] takes the order in which its promises settle
      as an argument.
    - The network, the clock and the callbacks of the caller are explicit
      arguments; a callback may return or throw.  The body of an HTTP
      reply is given at the shape the adapter reads it at.
    - A JavaScript object used as a dictionary is a [gmap]; prototype
      properties are not modelled.  [console] output is not modelled. *)

From stdpp Require Import gmap strings list fin_maps pretty.
From Stdlib Require Import Ascii QArith Qround.
Close Scope Q_scope.

(* ===================================================================== *)
(** * The JavaScript run time *)
(* ===================================================================== *)

Module Js.

(** ** Exceptions and promises *)

(** An [Error] object, as far as the programs look at it. *)
Record Error := mkError { name : string; message : string }.

(** A thrown value: an instance of [Error], or anything else. *)
Inductive Thrown :=
| IsError (e : Error)
| NotError.

(** [new Error(msg)] *)
Definition new_Error (msg : string) : Error :=
  {| name := "Error"; message := msg |}.

(** The rejection of [fetch] when its [AbortSignal] fires. *)
Definition AbortError (msg : string) : Error :=
  {| name := "AbortError"; message := msg |}.

(** [err instanceof Error ? err.message : 'Unknown error'] *)
Definition message_of (err : Thrown) : string :=
  match err with
  | IsError e => message e
  | NotError => "Unknown error"
  end.

(** The state a promise settles in. *)
Inductive Settled (A : Type) :=
| Fulfilled (value : A)
| Rejected (reason : Thrown).
Arguments Fulfilled {A} value.
Arguments Rejected {A} reason.

Definition is_fulfilled {A} (r : Settled A) : bool :=
  match r with Fulfilled _ => true | Rejected _ => false end.

Definition fulfilled_value {A} (r : Settled A) : option A :=
  match r with Fulfilled v => Some v | Rejected _ => None end.

(** [Promise.allSettled(promises)].  The result array has one slot per
    input promise; when the promise at index [i] settles, slot [i] is
    written.  [order] lists the indices in the order in which the
    promises settle.  The combined promise resolves once every slot is
    written, with the slots in input order; [None] stands for a combined
    promise that never resolves. *)
Definition settle_slot {A} (promises : list (Settled A))
    (slots : list (option (Settled A))) (i : nat) : list (option (Settled A)) :=
  match promises !! i with
  | Some r => <[i := Some r]> slots
  | None => slots
  end.

Definition allSettled {A} (order : list nat) (promises : list (Settled A))
    : option (list (Settled A)) :=
  mapM id (foldl (settle_slot promises) (replicate (length promises) None) order).

(** Every one of [n] promises settles at some point of [order]. *)
Definition settles_each (n : nat) (order : list nat) : bool :=
  forallb (fun i => existsb (Nat.eqb i) order) (seq 0 n).

(** ** Strings *)

Definition is_upper (c : ascii) : bool :=
  (65 <=? nat_of_ascii c)%nat && (nat_of_ascii c <=? 90)%nat.

Definition lower_char (c : ascii) : ascii :=
  if is_upper c then ascii_of_nat (nat_of_ascii c + 32) else c.

(** [s.toLowerCase()], on the ASCII letters. *)
Fixpoint toLowerCase (s : string) : string :=
  match s with
  | EmptyString => EmptyString
  | String c s' => String (lower_char c) (toLowerCase s')
  end.

(** [s.startsWith(p)] *)
Fixpoint startsWith (s p : string) {struct p} : bool :=
  match p, s with
  | EmptyString, _ => true
  | String _ _, EmptyString => false
  | String a p', String b s' => bool_decide (a = b) && startsWith s' p'
  end.

(** [s.includes(q)] *)
Fixpoint includes (s q : string) : bool :=
  startsWith s q ||
  match s with
  | EmptyString => false
  | String _ s' => includes s' q
  end.

Fixpoint drop_chars (n : nat) (s : string) : string :=
  match n, s with
  | O, _ => s
  | S _, EmptyString => EmptyString
  | S n', String _ s' => drop_chars n' s'
  end.

(** [s.replace(pattern, replacement)] with a string pattern: the first
    occurrence only.  The replacement is taken literally (the programs
    pass replacements without [$]). *)
Fixpoint replace (s pattern replacement : string) : string :=
  if startsWith s pattern
  then replacement +:+ drop_chars (String.length pattern) s
  else match s with
       | EmptyString => EmptyString
       | String c s' => String c (replace s' pattern replacement)
       end.

(** [xs.join(sep)] on an array of strings *)
Definition join (sep : string) (xs : list string) : string :=
  String.concat sep xs.

(** [xs.includes(x)] on an array of strings *)
Definition array_includes (xs : list string) (x : string) : bool :=
  existsb (String.eqb x) xs.

(** ** Percent encoding *)

Definition is_digit (c : ascii) : bool :=
  (48 <=? nat_of_ascii c)%nat && (nat_of_ascii c <=? 57)%nat.

Definition is_lower (c : ascii) : bool :=
  (97 <=? nat_of_ascii c)%nat && (nat_of_ascii c <=? 122)%nat.

Definition is_alnum (c : ascii) : bool :=
  is_digit c || is_upper c || is_lower c.

Definition hex_char (n : nat) : ascii :=
  if (n <? 10)%nat then ascii_of_nat (48 + n) else ascii_of_nat (55 + n).

Definition percent_byte (c : ascii) : string :=
  let n := nat_of_ascii c in
  String "%" (String (hex_char (n / 16)) (String (hex_char (n mod 16)) EmptyString)).

Definition one_of (cs : string) (c : ascii) : bool :=
  existsb (fun d => bool_decide (c = d)) (String.list_ascii_of_string cs).

Fixpoint encode_with (unreserved : ascii -> bool) (space_plus : bool) (s : string) : string :=
  match s with
  | EmptyString => EmptyString
  | String c s' =>
      (if unreserved c then String c EmptyString
       else if space_plus && bool_decide (c = " "%char) then "+"
       else percent_byte c) +:+ encode_with unreserved space_plus s'
  end.

(** [encodeURIComponent(s)] *)
Definition encodeURIComponent (s : string) : string :=
  encode_with (fun c => is_alnum c || one_of "-_.!~*'()" c) false s.

(** The [application/x-www-form-urlencoded] serializer behind
    [URLSearchParams]. *)
Definition form_encode (s : string) : string :=
  encode_with (fun c => is_alnum c || one_of "*-._" c) true s.

Definition serialize_params (params : list (string * string)) : string :=
  join "&" (map (fun p => form_encode p.1 +:+ "=" +:+ form_encode p.2) params).

(** The [href] of a [URL] built from [base] (a URL without query whose
    path needs no escaping) after [searchParams.set] was called for each
    of [params], in order, with distinct names. *)
Definition href (base : string) (params : list (string * string)) : string :=
  match params with
  | [] => base
  | _ => base +:+ "?" +:+ serialize_params params
  end.

(** ** Numbers *)

(** A number: [NaN], an infinity, or the exact decimal
    [mantissa * 10 ^ exp10]. *)
Inductive Number :=
| NaN
| Infinity (negative : bool)
| Finite (mantissa : Z) (exp10 : Z).

Definition of_Z (z : Z) : Number := Finite z 0.
Definition of_nat (n : nat) : Number := Finite (Z.of_nat n) 0.

(** [isNaN(n)] on a number *)
Definition isNaN (n : Number) : bool :=
  match n with NaN => true | _ => false end.

Definition is_zero (n : Number) : bool :=
  match n with Finite m _ => (m =? 0)%Z | _ => false end.

Definition negate (n : Number) : Number :=
  match n with
  | NaN => NaN
  | Infinity s => Infinity (negb s)
  | Finite m e => Finite (- m) e
  end.

(** White space of the string-to-number grammar (ASCII part). *)
Definition is_space (c : ascii) : bool :=
  let n := nat_of_ascii c in
  (n =? 32)%nat || ((9 <=? n)%nat && (n <=? 13)%nat).

Fixpoint trimStart (s : string) : string :=
  match s with
  | String c s' => if is_space c then trimStart s' else s
  | EmptyString => EmptyString
  end.

Fixpoint rev_string (acc s : string) : string :=
  match s with
  | EmptyString => acc
  | String c s' => rev_string (String c acc) s'
  end.

Definition trim (s : string) : string :=
  rev_string EmptyString (trimStart (rev_string EmptyString (trimStart s))).

(** The value of a digit in a radix up to 16, if it is one. *)
Definition digit_value (radix : Z) (c : ascii) : option Z :=
  let n := Z.of_nat (nat_of_ascii c) in
  let v := if is_digit c then Some (n - 48)%Z
           else if is_lower c then Some (n - 87)%Z
           else if is_upper c then Some (n - 55)%Z
           else None in
  match v with
  | Some d => if (d <? radix)%Z then Some d else None
  | None => None
  end.

(** Longest prefix of digits: its value, its length, and the rest. *)
Fixpoint digits_from (radix acc : Z) (count : nat) (s : string) : Z * nat * string :=
  match s with
  | String c s' =>
      match digit_value radix c with
      | Some d => digits_from radix (acc * radix + d)%Z (S count) s'
      | None => (acc, count, s)
      end
  | EmptyString => (acc, count, s)
  end.

Definition digits (radix : Z) (s : string) : Z * nat * string :=
  digits_from radix 0%Z 0%nat s.

(** [ExponentPart] or nothing, up to the end of the string. *)
Definition exponent_part (s : string) : option Z :=
  match s with
  | EmptyString => Some 0%Z
  | String c s' =>
      if bool_decide (c = "e"%char) || bool_decide (c = "E"%char) then
        let '(negative, s'') :=
          match s' with
          | String "-"%char t => (true, t)
          | String "+"%char t => (false, t)
          | _ => (false, s')
          end in
        match digits 10 s'' with
        | (_, O, _) => None
        | (v, _, EmptyString) => Some (if negative then - v else v)%Z
        | _ => None
        end
      else None
  end.

(** [StrUnsignedDecimalLiteral] *)
Definition unsigned_decimal (s : string) : Number :=
  if String.eqb s "Infinity" then Infinity false
  else
    let '(int_value, int_len, rest) := digits 10 s in
    let '(value, frac_len, rest') :=
      match rest with
      | String "."%char t => digits_from 10 int_value 0%nat t
      | _ => (int_value, 0%nat, rest)
      end in
    if ((int_len + frac_len)%nat =? 0)%nat then NaN
    else match exponent_part rest' with
         | Some e => Finite value (e - Z.of_nat frac_len)
         | None => NaN
         end.

(** [0x], [0o] and [0b] literals *)
Definition radix_prefix (s : string) : option (Z * string) :=
  match s with
  | String "0"%char (String c t) =>
      if bool_decide (c = "x"%char) || bool_decide (c = "X"%char) then Some (16%Z, t)
      else if bool_decide (c = "o"%char) || bool_decide (c = "O"%char) then Some (8%Z, t)
      else if bool_decide (c = "b"%char) || bool_decide (c = "B"%char) then Some (2%Z, t)
      else None
  | _ => None
  end.

(** [Number(s)] for a string [s]. *)
Definition StringToNumber (s : string) : Number :=
  let t := trim s in
  match t with
  | EmptyString => Finite 0 0
  | String "-"%char u => negate (unsigned_decimal u)
  | String "+"%char u => unsigned_decimal u
  | _ =>
      match radix_prefix t with
      | Some (radix, u) =>
          match digits radix u with
          | (_, O, _) => NaN
          | (v, _, EmptyString) => Finite v 0
          | _ => NaN
          end
      | None => unsigned_decimal t
      end
  end.

(** [parseInt(s)] for a string [s], without radix argument. *)
Definition parseInt (s : string) : Number :=
  let t := trimStart s in
  let '(negative, u) :=
    match t with
    | String "-"%char v => (true, v)
    | String "+"%char v => (false, v)
    | _ => (false, t)
    end in
  let '(radix, w) :=
    match radix_prefix u with
    | Some (16%Z, v) => (16%Z, v)
    | _ => (10%Z, u)
    end in
  match digits radix w with
  | (_, O, _) => NaN
  | (v, _, _) => Finite (if negative then - v else v) 0
  end.

(** ** Dynamic values *)

(** What [response.json()] can produce, together with [undefined] and
    [Date] objects ([time = None] is an invalid date). *)
#[warnings="-register-all"] Inductive Value :=
| VUndefined
| VNull
| VBool (b : bool)
| VNum (n : Number)
| VStr (s : string)
| VDate (time : option Z)
| VArr (items : list Value)
| VObj (props : list (string * Value)).

(** Truthiness: [!!v] *)
Definition truthy (v : Value) : bool :=
  match v with
  | VUndefined | VNull => false
  | VBool b => b
  | VNum n => negb (isNaN n) && negb (is_zero n)
  | VStr s => negb (String.eqb s "")
  | VDate _ | VArr _ | VObj _ => true
  end.

(** [a || b] *)
Definition or_else (a b : Value) : Value := if truthy a then a else b.

(** [Number(v)].  An array converts through its string form: the empty
    array through [""], a one-element array through the string form of
    its element, a longer one through a string with a comma. *)
Fixpoint ToNumber (v : Value) : Number :=
  match v with
  | VUndefined => NaN
  | VNull => Finite 0 0
  | VBool b => Finite (if b then 1 else 0) 0
  | VNum n => n
  | VStr s => StringToNumber s
  | VDate (Some t) => Finite t 0
  | VDate None => NaN
  | VObj _ => NaN
  | VArr [] => Finite 0 0
  | VArr [x] =>
      match x with
      | VUndefined | VNull => Finite 0 0
      | VNum n => n
      | VStr s => StringToNumber s
      | VArr _ => ToNumber x
      | VBool _ | VDate _ | VObj _ => NaN
      end
  | VArr _ => NaN
  end.

(** Property lookup in an object literal. *)
Fixpoint lookup_prop (k : string) (props : list (string * Value)) : Value :=
  match props with
  | [] => VUndefined
  | (k', v) :: rest => if String.eqb k k' then v else lookup_prop k rest
  end.

End Js.

(* ===================================================================== *)
(** * types.ts: the common contract and the result validator *)
(* ===================================================================== *)

Module Types.
Import Js.

Inductive DataSourceCategory :=
| government | academic | financial | health | international.

Inductive Freshness :=
| realtime | daily | weekly | monthly | annual.

Record DatasetInfo := {
  id : string;
  name : string;
  description : string;
  source : string;
  category : DataSourceCategory;
  variables : option (list string);
  geography : option (list string);
  years : option (list Z);
  (** a [Date]: its time value, [None] for an invalid date *)
  lastUpdated : option (option Z);
}.

(** A dataset description with the optional fields left out. *)
Definition dataset (id name description source : string)
    (category : DataSourceCategory) : DatasetInfo :=
  {| id := id; name := name; description := description; source := source;
     category := category; variables := None; geography := None;
     years := None; lastUpdated := None |}.

Record FetchParams := {
  p_variables : option (list string);
  p_geography : option string;
  (** [number | string] *)
  p_year : option (Z + string);
  p_filters : option (gmap string (string + Z));
  p_limit : option Z;
  p_offset : option Z;
}.

Definition no_params : FetchParams :=
  {| p_variables := None; p_geography := None; p_year := None;
     p_filters := None; p_limit := None; p_offset := None |}.

Record Metadata := {
  (** the time value of the [Date], in milliseconds *)
  fetchedAt : Z;
  rowCount : Number;
  columns : list string;
  freshness : option Freshness;
  sourceUrl : option string;
}.

Record DataResult := {
  r_source : string;
  r_dataset : string;
  (** one mapping from column name to cell per row *)
  data : list (gmap string Value);
  metadata : Metadata;
}.

Record ValidationResult := {
  valid : bool;
  (** [{ path, message }] *)
  errors : list (string * string);
  warnings : list string;
  v_data : option DataResult;
}.

Record RateLimitInfo := {
  requestsPerMinute : Z;
  requestsPerDay : Z;
  currentUsage : option Z;
}.

(** The [DataSource] interface. *)
Record DataSource := {
  ds_id : string;
  ds_name : string;
  ds_category : DataSourceCategory;
  ds_description : string;
  baseUrl : string;
  requiresApiKey : bool;
  search : string -> Settled (list DatasetInfo);
  fetch : string -> FetchParams -> Settled DataResult;
  getDatasets : Settled (list DatasetInfo);
  getRateLimits : RateLimitInfo;
}.

(** ** What [fetch(url)] does, seen from an adapter.

    [B] is the shape the adapter reads the JSON body at. *)
Inductive FetchResult (B : Type) :=
(** [fetch] rejects: the network failed, or the request was aborted *)
| NetworkError (e : Error)
(** [response.ok] is false; [text] is the body, [detail] the message
    found in the body's JSON error envelope, if there is one *)
| HttpFailure (status : Z) (statusText text : string) (detail : option string)
(** [response.ok] is true; [body] is the JSON body at the shape [B], or
    the error thrown on the way to it, by [response.json()] on a body
    that is not JSON *)
| HttpSuccess (body : Error + B).
Arguments NetworkError {B} e.
Arguments HttpFailure {B} status statusText text detail.
Arguments HttpSuccess {B} body.

(** ** The zod schema [DataResultSchema] *)

Inductive PathItem := Key (k : string) | Index (i : nat).

Record ZodIssue := { path : list PathItem; issue_message : string }.

Definition Parsed (A : Type) : Type := list ZodIssue + A.

(** zod's name for the run-time type of a value *)
Definition parsedType (v : Value) : string :=
  match v with
  | VUndefined => "undefined"
  | VNull => "null"
  | VBool _ => "boolean"
  | VNum n => if isNaN n then "nan" else "number"
  | VStr _ => "string"
  | VDate _ => "date"
  | VArr _ => "array"
  | VObj _ => "object"
  end.

(** The [invalid_type] issue with zod's default message. *)
Definition invalid_type {A} (at_path : list PathItem) (expected : string) (v : Value) : Parsed A :=
  inl [ {| path := at_path;
           issue_message :=
             match v with
             | VUndefined => "Required"
             | _ => "Expected " +:+ expected +:+ ", received " +:+ parsedType v
             end |} ].

(** Both parts are parsed; the issues of both are reported. *)
Definition both {A B} (a : Parsed A) (b : Parsed B) : Parsed (A * B) :=
  match a, b with
  | inr x, inr y => inr (x, y)
  | inl e, inr _ => inl e
  | inr _, inl e => inl e
  | inl e1, inl e2 => inl (e1 ++ e2)
  end.

Definition parsed_map {A B} (f : A -> B) (a : Parsed A) : Parsed B :=
  match a with inl e => inl e | inr x => inr (f x) end.

(** [z.string()] *)
Definition z_string (at_path : list PathItem) (v : Value) : Parsed string :=
  match v with VStr s => inr s | _ => invalid_type at_path "string" v end.

(** [z.number()] *)
Definition z_number (at_path : list PathItem) (v : Value) : Parsed Number :=
  match v with
  | VNum n => if isNaN n then invalid_type at_path "number" v else inr n
  | _ => invalid_type at_path "number" v
  end.

(** [z.date()] *)
Definition z_date (at_path : list PathItem) (v : Value) : Parsed Z :=
  match v with
  | VDate (Some t) => inr t
  | VDate None => inl [ {| path := at_path; issue_message := "Invalid date" |} ]
  | _ => invalid_type at_path "date" v
  end.

(** [z.record(z.unknown())] *)
Definition z_record (at_path : list PathItem) (v : Value) : Parsed (gmap string Value) :=
  match v with
  | VObj props => inr (list_to_map props)
  | _ => invalid_type at_path "object" v
  end.

(** [z.array(item)] *)
Fixpoint z_items {A} (item : list PathItem -> Value -> Parsed A)
    (at_path : list PathItem) (i : nat) (vs : list Value) : Parsed (list A) :=
  match vs with
  | [] => inr []
  | v :: rest =>
      parsed_map (fun p => p.1 :: p.2)
        (both (item (at_path ++ [Index i]) v) (z_items item at_path (S i) rest))
  end.

Definition z_array {A} (item : list PathItem -> Value -> Parsed A)
    (at_path : list PathItem) (v : Value) : Parsed (list A) :=
  match v with
  | VArr vs => z_items item at_path 0 vs
  | _ => invalid_type at_path "array" v
  end.

(** [schema.optional()] *)
Definition z_optional {A} (schema : list PathItem -> Value -> Parsed A)
    (at_path : list PathItem) (v : Value) : Parsed (option A) :=
  match v with
  | VUndefined => inr None
  | _ => parsed_map Some (schema at_path v)
  end.

Definition freshness_values : string :=
  "'realtime' | 'daily' | 'weekly' | 'monthly' | 'annual'".

(** [z.enum(['realtime', 'daily', 'weekly', 'monthly', 'annual'])] *)
Definition z_freshness (at_path : list PathItem) (v : Value) : Parsed Freshness :=
  match v with
  | VStr s =>
      if String.eqb s "realtime" then inr realtime
      else if String.eqb s "daily" then inr daily
      else if String.eqb s "weekly" then inr weekly
      else if String.eqb s "monthly" then inr monthly
      else if String.eqb s "annual" then inr annual
      else inl [ {| path := at_path;
                    issue_message := "Invalid enum value. Expected " +:+ freshness_values
                                     +:+ ", received '" +:+ s +:+ "'" |} ]
  | _ => invalid_type at_path freshness_values v
  end.

(** The [metadata] object of the schema. *)
Definition z_metadata (at_path : list PathItem) (v : Value) : Parsed Metadata :=
  match v with
  | VObj props =>
      let field k := lookup_prop k props in
      let at_key k := at_path ++ [Key k] in
      parsed_map
        (fun p => {| fetchedAt := p.1.1.1.1; rowCount := p.1.1.1.2; columns := p.1.1.2;
                     freshness := p.1.2; sourceUrl := p.2 |})
        (both (both (both (both
           (z_date (at_key "fetchedAt") (field "fetchedAt"))
           (z_number (at_key "rowCount") (field "rowCount")))
           (z_array z_string (at_key "columns") (field "columns")))
           (z_optional z_freshness (at_key "freshness") (field "freshness")))
           (z_optional z_string (at_key "sourceUrl") (field "sourceUrl")))
  | _ => invalid_type at_path "object" v
  end.

(** [DataResultSchema.safeParse(data)] *)
Definition DataResultSchema (v : Value) : Parsed DataResult :=
  match v with
  | VObj props =>
      let field k := lookup_prop k props in
      parsed_map
        (fun p => {| r_source := p.1.1.1; r_dataset := p.1.1.2; data := p.1.2;
                     metadata := p.2 |})
        (both (both (both
           (z_string [Key "source"] (field "source"))
           (z_string [Key "dataset"] (field "dataset")))
           (z_array z_record [Key "data"] (field "data")))
           (z_metadata [Key "metadata"] (field "metadata")))
  | _ => invalid_type [] "object" v
  end.

(** [e.path.join('.')] *)
Definition path_string (p : list PathItem) : string :=
  join "." (map (fun item => match item with Key k => k | Index i => pretty i end) p).

(** ** [validateDataResult]

    [now] is the value of [Date.now()].  The age is the exact quotient
    of two integers; its comparison with 30 and its floor agree with the
    ones on doubles, the gap between two quotients being far above the
    rounding error. *)
Definition MS_PER_DAY : Z := 1000 * 60 * 60 * 24.

Definition validateDataResult (now : Z) (candidate : Value) : ValidationResult :=
  match DataResultSchema candidate with
  | inl issues =>
      {| valid := false;
         errors := map (fun e => (path_string (path e), issue_message e)) issues;
         warnings := [];
         v_data := None |}
  | inr result =>
      let warnings : list string := [] in
      (* Check data freshness *)
      let ageInDays : Q := (inject_Z (now - fetchedAt (metadata result)) / inject_Z MS_PER_DAY)%Q in
      let warnings :=
        if Qlt_le_dec 30 ageInDays
        then warnings ++ ["Data is " +:+ pretty (Qfloor ageInDays) +:+ " days old"]
        else warnings in
      (* Check for empty data *)
      let warnings :=
        if (length (data result) =? 0)%nat
        then warnings ++ ["Query returned no results"]
        else warnings in
      {| valid := true; errors := []; warnings := warnings; v_data := Some result |}
  end.

End Types.

(* ===================================================================== *)
(** * census.ts: US Census Bureau *)
(* ===================================================================== *)

Module Census.
Import Js Types.

(** Common ACS variables, in declaration order. *)
Definition ACS_VARIABLES : list (string * string) := [
  ("B01001_001E", "Total Population");
  ("B01002_001E", "Median Age");
  ("B19013_001E", "Median Household Income");
  ("B19001_001E", "Household Income Distribution");
  ("B25077_001E", "Median Home Value");
  ("B25064_001E", "Median Gross Rent");
  ("B23025_001E", "Employment Status");
  ("B15003_001E", "Educational Attainment");
  ("B02001_001E", "Race Total");
  ("B03001_001E", "Hispanic Origin");
  ("B25001_001E", "Total Housing Units");
  ("B25002_001E", "Occupancy Status");
  ("B08301_001E", "Means of Transportation to Work");
  ("B17001_001E", "Poverty Status");
  ("B27001_001E", "Health Insurance Coverage")
].

Definition census_dataset (id name description : string) (years : list Z) : DatasetInfo :=
  {| id := id; name := name; description := description; source := "census";
     category := government; variables := None; geography := None;
     years := Some years; lastUpdated := None |}.

Definition CENSUS_DATASETS : list DatasetInfo := [
  census_dataset "acs/acs1" "American Community Survey 1-Year"
    "Annual demographic, social, economic, and housing data for areas with 65,000+ population"
    [2022; 2021; 2020; 2019; 2018]%Z;
  census_dataset "acs/acs5" "American Community Survey 5-Year"
    "Five-year estimates for all geographic areas, including small populations"
    [2022; 2021; 2020; 2019; 2018]%Z;
  census_dataset "dec/pl" "Decennial Census Redistricting Data"
    "Population counts for redistricting purposes"
    [2020; 2010]%Z;
  census_dataset "pep/population" "Population Estimates"
    "Annual population estimates by age, sex, race, and Hispanic origin"
    [2022; 2021; 2020; 2019]%Z
].

(** The instance state of [CensusDataSource]. *)
Record CensusDataSource := { apiKey : option string }.

Definition census_id : string := "census".
Definition census_baseUrl : string := "https://api.census.gov/data".

(** [this.apiKey] as a condition *)
Definition has_key (self : CensusDataSource) : bool :=
  match apiKey self with
  | Some k => negb (String.eqb k "")
  | None => false
  end.

(** [this.apiKey || ''] *)
Definition key_or_empty (self : CensusDataSource) : string :=
  match apiKey self with Some k => k | None => "" end.

Definition getDatasets : Settled (list DatasetInfo) := Fulfilled CENSUS_DATASETS.

Definition search (query : string) : Settled (list DatasetInfo) :=
  let lowerQuery := toLowerCase query in
  (* Search in predefined datasets *)
  let matchingDatasets :=
    filter (fun d : DatasetInfo =>
              includes (toLowerCase (name d)) lowerQuery
              || includes (toLowerCase (description d)) lowerQuery = true)
           CENSUS_DATASETS in
  (* Also search in variable names *)
  let matchingVariables :=
    map (fun entry : string * string =>
           dataset ("acs/acs5:" +:+ entry.1) entry.2 ("ACS variable: " +:+ entry.1)
                   "census" government)
        (filter (fun entry : string * string =>
                   includes (toLowerCase entry.2) lowerQuery = true)
                ACS_VARIABLES) in
  Fulfilled (matchingDatasets ++ matchingVariables).

(** The body of a reply: an array of arrays whose first row holds the
    column names, [[headers, ...rows]]. *)
Record Table := { headers : list string; rows : list (list Value) }.

(** [isNaN(Number(value)) ? value : Number(value)] *)
Definition convert (value : Value) : Value :=
  if isNaN (ToNumber value) then value else VNum (ToNumber value).

(** [row[index]] *)
Definition cell (row : list Value) (index : nat) : Value :=
  default VUndefined (row !! index).

(** The object built by [headers.forEach((header, index) => ...)]. *)
Definition row_object (headers : list string) (row : list Value) : gmap string Value :=
  foldl (fun (obj : gmap string Value) (assignment : string * Value) =>
           <[assignment.1 := assignment.2]> obj)
        ∅
        (imap (fun index header => (header, convert (cell row index))) headers).

(** [`${year}`] *)
Definition year_string (year : Z + string) : string :=
  match year with inl n => pretty n | inr s => s end.

(** [params.year || 2022] *)
Definition year_or_default (params : FetchParams) : Z + string :=
  match p_year params with
  | Some (inl n) => if (n =? 0)%Z then inl 2022%Z else inl n
  | Some (inr s) => if String.eqb s "" then inl 2022%Z else inr s
  | None => inl 2022%Z
  end.

(** [params.geography || 'state:*'] *)
Definition geography_or_default (params : FetchParams) : string :=
  match p_geography params with
  | Some g => if String.eqb g "" then "state:*" else g
  | None => "state:*"
  end.

(** The variables requested, [NAME] always among them. *)
Definition request_variables (params : FetchParams) : list string :=
  let variables := default ["B01001_001E"; "NAME"] (p_variables params) in
  if array_includes variables "NAME" then variables else "NAME" :: variables.

(** [url.toString()] for the request of [fetch]. *)
Definition request_url (self : CensusDataSource) (datasetId : string) (params : FetchParams) : string :=
  let year := year_or_default params in
  let geography := geography_or_default params in
  let variables := request_variables params in
  href (census_baseUrl +:+ "/" +:+ year_string year +:+ "/" +:+ datasetId)
       ([("get", join "," variables); ("for", geography)]
        ++ (if has_key self then [("key", key_or_empty self)] else [])).

(** The error thrown out of [fetch]'s [catch]. *)
Definition fetch_failure {A} (error : Thrown) : Settled A :=
  Rejected (IsError (new_Error ("Failed to fetch Census data: " +:+ message_of error))).

Definition fetch (self : CensusDataSource) (http : string -> FetchResult Table) (now : Z)
    (datasetId : string) (params : FetchParams) : Settled DataResult :=
  let url := request_url self datasetId params in
  match http url with
  | NetworkError e => fetch_failure (IsError e)
  | HttpFailure status _ errorText _ =>
      fetch_failure
        (IsError (new_Error ("Census API error: " +:+ pretty status +:+ " - " +:+ errorText)))
  | HttpSuccess (inl e) => fetch_failure (IsError e)
  | HttpSuccess (inr rawData) =>
      (* Census API returns array of arrays, first row is headers *)
      let data := map (row_object (headers rawData)) (rows rawData) in
      Fulfilled
        {| r_source := census_id;
           r_dataset := datasetId;
           data := data;
           metadata :=
             {| fetchedAt := now;
                rowCount := of_nat (length data);
                columns := headers rawData;
                freshness := Some annual;
                sourceUrl := Some (replace url (key_or_empty self) "[API_KEY]") |} |}
  end.

Definition getRateLimits (self : CensusDataSource) : RateLimitInfo :=
  {| requestsPerMinute := if has_key self then 120 else 20;
     requestsPerDay := if has_key self then 10000 else 500;
     currentUsage := None |}.

(** The instance as a [DataSource]. *)
Definition instance (http : string -> FetchResult Table) (now : Z)
    (apiKey : option string) : DataSource :=
  let self := {| apiKey := apiKey |} in
  {| ds_id := census_id;
     ds_name := "US Census Bureau";
     ds_category := government;
     ds_description := "Official US government source for population, economic, and housing statistics";
     baseUrl := census_baseUrl;
     requiresApiKey := false;
     Types.search := search;
     Types.fetch := fetch self http now;
     Types.getDatasets := getDatasets;
     Types.getRateLimits := getRateLimits self |}.

End Census.

(* ===================================================================== *)
(** * fred.ts: Federal Reserve Economic Data *)
(* ===================================================================== *)

Module Fred.
Import Js Types.

(** Popular FRED series: id, name, description, in declaration order. *)
Definition POPULAR_SERIES : list (string * (string * string)) := [
  ("GDP", ("Gross Domestic Product", "US GDP in billions of dollars"));
  ("GDPC1", ("Real GDP", "Real Gross Domestic Product, seasonally adjusted"));
  ("UNRATE", ("Unemployment Rate", "Civilian unemployment rate"));
  ("CPIAUCSL", ("Consumer Price Index", "CPI for All Urban Consumers"));
  ("FEDFUNDS", ("Federal Funds Rate", "Effective Federal Funds Rate"));
  ("DGS10", ("10-Year Treasury", "10-Year Treasury Constant Maturity Rate"));
  ("MORTGAGE30US", ("30-Year Mortgage Rate", "30-Year Fixed Rate Mortgage Average"));
  ("DEXUSEU", ("USD/EUR Exchange Rate", "US Dollar to Euro exchange rate"));
  ("SP500", ("S&P 500", "S&P 500 Index"));
  ("PAYEMS", ("Nonfarm Payrolls", "All Employees, Total Nonfarm"));
  ("HOUST", ("Housing Starts", "New privately-owned housing units started"));
  ("RSXFS", ("Retail Sales", "Advance Retail Sales: Retail and Food Services"));
  ("INDPRO", ("Industrial Production", "Industrial Production Index"));
  ("M2SL", ("M2 Money Supply", "M2 Money Stock"));
  ("PPIACO", ("Producer Price Index", "Producer Price Index: All Commodities"))
].

Record FredDataSource := { apiKey : string }.

Definition fred_id : string := "fred".
Definition fred_baseUrl : string := "https://api.stlouisfed.org/fred".

(** A catalog entry as a dataset description. *)
Definition series_info (entry : string * (string * string)) : DatasetInfo :=
  dataset entry.1 entry.2.1 entry.2.2 "fred" financial.

Definition getDatasets : Settled (list DatasetInfo) :=
  Fulfilled (map series_info POPULAR_SERIES).

(** One element of [data.seriess] in a search reply.  [last_updated] is
    the instant its text denotes, [None] when it denotes none. *)
Record Series := {
  s_id : string;
  title : string;
  notes : option string;
  last_updated : option Z;
}.

(** The body of a search reply: [data.seriess], if present. *)
Record SearchReply := { seriess : option (list Series) }.

Definition search_url (self : FredDataSource) (query : string) : string :=
  href (fred_baseUrl +:+ "/series/search")
       [("api_key", apiKey self); ("search_text", query); ("file_type", "json"); ("limit", "20")].

(** The matches in the local catalog: the [catch] branch of [search]. *)
Definition local_search (query : string) : list DatasetInfo :=
  let lowerQuery := toLowerCase query in
  map series_info
    (filter (fun entry : string * (string * string) =>
               includes (toLowerCase entry.1) lowerQuery
               || includes (toLowerCase entry.2.1) lowerQuery
               || includes (toLowerCase entry.2.2) lowerQuery = true)
            POPULAR_SERIES).

Definition search (self : FredDataSource) (http : string -> FetchResult SearchReply)
    (query : string) : Settled (list DatasetInfo) :=
  match http (search_url self query) with
  | HttpSuccess (inr data) =>
      Fulfilled
        (map (fun series : Series =>
                {| id := s_id series;
                   name := title series;
                   description := default "" (notes series);
                   source := "fred";
                   category := financial;
                   variables := None; geography := None; years := None;
                   lastUpdated := Some (last_updated series) |})
             (default [] (seriess data)))
  | NetworkError _ | HttpFailure _ _ _ _ | HttpSuccess (inl _) =>
      (* Fallback to local search if API fails *)
      Fulfilled (local_search query)
  end.

(** One element of [rawData.observations]. *)
Record Observation := { o_date : Value; o_value : Value }.

(** The body of an observations reply. *)
Record Observations := {
  observations : option (list Observation);
  frequency_short : option string;
}.

Definition determineFreshness (frequencyCode : option string) : Freshness :=
  match frequencyCode with
  | Some code =>
      if String.eqb code "D" then daily
      else if String.eqb code "W" then weekly
      else if String.eqb code "M" then monthly
      else if String.eqb code "Q" then monthly
      else if String.eqb code "A" then annual
      else monthly
  | None => monthly
  end.

(** [`${params.year}`] in the observation bounds *)
Definition year_string (year : Z + string) : string :=
  match year with inl n => pretty n | inr s => s end.

Definition year_given (params : FetchParams) : option (Z + string) :=
  match p_year params with
  | Some (inl n) => if (n =? 0)%Z then None else Some (inl n)
  | Some (inr s) => if String.eqb s "" then None else Some (inr s)
  | None => None
  end.

(** [if (n) ...] on an optional number *)
Definition nonzero (n : option Z) : option Z :=
  match n with
  | Some z => if (z =? 0)%Z then None else Some z
  | None => None
  end.

Definition observations_url (self : FredDataSource) (seriesId : string)
    (params : FetchParams) : string :=
  href (fred_baseUrl +:+ "/series/observations")
       ([("api_key", apiKey self); ("series_id", seriesId); ("file_type", "json")]
        ++ match year_given params with
           | Some y => [("observation_start", year_string y +:+ "-01-01");
                        ("observation_end", year_string y +:+ "-12-31")]
           | None => []
           end
        ++ match nonzero (p_limit params) with
           | Some n => [("limit", pretty n)]
           | None => []
           end
        ++ match nonzero (p_offset params) with
           | Some n => [("offset", pretty n)]
           | None => []
           end).

(** [obs.value === '.' ? null : Number(obs.value)] *)
Definition observation_value (v : Value) : Value :=
  match v with
  | VStr s => if String.eqb s "." then VNull else VNum (ToNumber v)
  | _ => VNum (ToNumber v)
  end.

(** The row made of one observation. *)
Definition observation_row (seriesId : string) (obs : Observation) : gmap string Value :=
  <["seriesId" := VStr seriesId]>
    (<["value" := observation_value (o_value obs)]>
       (<["date" := o_date obs]> ∅)).

Definition fetch_failure {A} (error : Thrown) : Settled A :=
  Rejected (IsError (new_Error ("Failed to fetch FRED data: " +:+ message_of error))).

Definition fetch (self : FredDataSource) (http : string -> FetchResult Observations) (now : Z)
    (seriesId : string) (params : FetchParams) : Settled DataResult :=
  match http (observations_url self seriesId params) with
  | NetworkError e => fetch_failure (IsError e)
  | HttpFailure status _ _ error_message =>
      let detail :=
        match error_message with
        | Some m => if String.eqb m "" then "Unknown error" else m
        | None => "Unknown error"
        end in
      fetch_failure
        (IsError (new_Error ("FRED API error: " +:+ pretty status +:+ " - " +:+ detail)))
  | HttpSuccess (inl e) => fetch_failure (IsError e)
  | HttpSuccess (inr rawData) =>
      (* Transform observations to structured data *)
      let data := map (observation_row seriesId) (default [] (observations rawData)) in
      Fulfilled
        {| r_source := fred_id;
           r_dataset := seriesId;
           data := data;
           metadata :=
             {| fetchedAt := now;
                rowCount := of_nat (length data);
                columns := ["date"; "value"; "seriesId"];
                freshness := Some (determineFreshness (frequency_short rawData));
                sourceUrl := Some ("https://fred.stlouisfed.org/series/" +:+ seriesId) |} |}
  end.

Definition getRateLimits : RateLimitInfo :=
  {| requestsPerMinute := 120; requestsPerDay := 10000; currentUsage := None |}.

(** The two endpoints of the API. *)
Record Api := {
  search_api : string -> FetchResult SearchReply;
  observations_api : string -> FetchResult Observations;
}.

Definition instance (api : Api) (now : Z) (apiKey : string) : DataSource :=
  let self := {| apiKey := apiKey |} in
  {| ds_id := fred_id;
     ds_name := "Federal Reserve Economic Data";
     ds_category := financial;
     ds_description := "Economic data from the Federal Reserve Bank of St. Louis";
     baseUrl := fred_baseUrl;
     requiresApiKey := true;
     Types.search := search self (search_api api);
     Types.fetch := fetch self (observations_api api) now;
     Types.getDatasets := getDatasets;
     Types.getRateLimits := getRateLimits |}.

End Fred.

(* ===================================================================== *)
(** * worldbank.ts: World Bank Open Data *)
(* ===================================================================== *)

Module WorldBank.
Import Js Types.

(** Popular indicators: id, name, description, in declaration order. *)
Definition POPULAR_INDICATORS : list (string * (string * string)) := [
  ("NY.GDP.MKTP.CD", ("GDP (current US$)", "Gross Domestic Product at market prices"));
  ("NY.GDP.PCAP.CD", ("GDP per capita (current US$)", "GDP divided by midyear population"));
  ("NY.GDP.MKTP.KD.ZG", ("GDP growth (annual %)", "Annual GDP growth rate"));
  ("SP.POP.TOTL", ("Population, total", "Total population count"));
  ("SP.POP.GROW", ("Population growth (annual %)", "Annual population growth rate"));
  ("SL.UEM.TOTL.ZS", ("Unemployment (% of labor force)", "Unemployment as % of total labor force"));
  ("FP.CPI.TOTL.ZG", ("Inflation (consumer prices)", "Annual inflation rate"));
  ("SL.TLF.CACT.ZS", ("Labor force participation rate", "Labor force as % of population 15+"));
  ("SE.ADT.LITR.ZS", ("Literacy rate (% adults)", "Adult literacy rate, ages 15+"));
  ("SP.DYN.LE00.IN", ("Life expectancy at birth", "Total life expectancy in years"));
  ("SH.XPD.CHEX.PC.CD", ("Health expenditure per capita", "Current health expenditure per capita in USD"));
  ("SE.XPD.TOTL.GD.ZS", ("Education expenditure (% of GDP)", "Government expenditure on education"));
  ("EG.USE.ELEC.KH.PC", ("Electric power consumption", "Electric power consumption per capita (kWh)"));
  ("EN.ATM.CO2E.PC", ("CO2 emissions per capita", "CO2 emissions in metric tons per capita"));
  ("SI.POV.DDAY", ("Poverty headcount ratio", "Population below $2.15/day (2017 PPP)"))
].

Definition worldbank_id : string := "worldbank".
Definition worldbank_baseUrl : string := "https://api.worldbank.org/v2".

Definition indicator_info (entry : string * (string * string)) : DatasetInfo :=
  dataset entry.1 entry.2.1 entry.2.2 "worldbank" international.

Definition getDatasets : Settled (list DatasetInfo) :=
  Fulfilled (map indicator_info POPULAR_INDICATORS).

(** One element of the indicator list of a search reply. *)
Record Indicator := { i_id : string; i_name : string; sourceNote : option string }.

(** The body of a search reply, [[paging, data]]: its second element
    when that is an array. *)
Record SearchReply := { indicators : option (list Indicator) }.

Definition search_url (query : string) : string :=
  worldbank_baseUrl +:+ "/indicator?format=json&per_page=20&search=" +:+ encodeURIComponent query.

(** The matches in the local catalog: the fallback of [search]. *)
Definition local_search (query : string) : list DatasetInfo :=
  let lowerQuery := toLowerCase query in
  map indicator_info
    (filter (fun entry : string * (string * string) =>
               includes (toLowerCase entry.1) lowerQuery
               || includes (toLowerCase entry.2.1) lowerQuery
               || includes (toLowerCase entry.2.2) lowerQuery = true)
            POPULAR_INDICATORS).

Definition search (http : string -> FetchResult SearchReply) (query : string)
    : Settled (list DatasetInfo) :=
  (* First try API search *)
  match http (search_url query) with
  | HttpSuccess (inr {| indicators := Some data |}) =>
      Fulfilled
        (map (fun ind : Indicator =>
                dataset (i_id ind) (i_name ind) (default "" (sourceNote ind))
                        "worldbank" international)
             data)
  | HttpSuccess (inr {| indicators := None |})
  | HttpSuccess (inl _)
  | HttpFailure _ _ _ _
  | NetworkError _ =>
      (* Fallback to local search *)
      Fulfilled (local_search query)
  end.

(** One element of the data list of an indicator reply. *)
Record Item := {
  country_id : Value;
  country_value : Value;
  countryiso3code : Value;
  date : string;
  value : Value;
  indicator_id : Value;
  indicator_value : Value;
}.

(** The body of an indicator reply, [[metadata, rawData]]: its second
    element, [None] when it is missing or [null]. *)
Record Reply := { rawData : option (list Item) }.

(** [params.geography || 'all'] *)
Definition country_or_all (params : FetchParams) : string :=
  match p_geography params with
  | Some g => if String.eqb g "" then "all" else g
  | None => "all"
  end.

(** [params.year ? `${params.year}` : '2010:2023'] *)
Definition date_range (params : FetchParams) : string :=
  match p_year params with
  | Some (inl n) => if (n =? 0)%Z then "2010:2023" else pretty n
  | Some (inr s) => if String.eqb s "" then "2010:2023" else s
  | None => "2010:2023"
  end.

(** [params.limit || 1000] *)
Definition per_page (params : FetchParams) : Z :=
  match p_limit params with
  | Some n => if (n =? 0)%Z then 1000 else n
  | None => 1000
  end.

Definition request_url (indicatorId : string) (params : FetchParams) : string :=
  worldbank_baseUrl +:+ "/country/" +:+ country_or_all params +:+ "/indicator/" +:+ indicatorId
    +:+ "?format=json&per_page=" +:+ pretty (per_page params)
    +:+ "&date=" +:+ date_range params.

(** [item.value !== null] *)
Definition has_value (item : Item) : bool :=
  match value item with VNull => false | _ => true end.

(** The row made of one item. *)
Definition item_row (item : Item) : gmap string Value :=
  <["indicatorName" := indicator_value item]>
    (<["indicator" := indicator_id item]>
       (<["value" := value item]>
          (<["year" := VNum (parseInt (date item))]>
             (<["countryCode" := or_else (countryiso3code item) (country_id item)]>
                (<["country" := country_value item]> ∅))))).

Definition fetch_failure {A} (error : Thrown) : Settled A :=
  Rejected (IsError (new_Error ("Failed to fetch World Bank data: " +:+ message_of error))).

Definition fetch (http : string -> FetchResult Reply) (now : Z)
    (indicatorId : string) (params : FetchParams) : Settled DataResult :=
  let url := request_url indicatorId params in
  match http url with
  | NetworkError e => fetch_failure (IsError e)
  | HttpFailure status _ _ _ =>
      fetch_failure (IsError (new_Error ("World Bank API error: " +:+ pretty status)))
  | HttpSuccess (inl e) => fetch_failure (IsError e)
  | HttpSuccess (inr reply) =>
      match rawData reply with
      | None | Some [] =>
          Fulfilled
            {| r_source := worldbank_id;
               r_dataset := indicatorId;
               data := [];
               metadata :=
                 {| fetchedAt := now;
                    rowCount := of_Z 0;
                    columns := ["country"; "countryCode"; "year"; "value"; "indicator"];
                    freshness := Some annual;
                    sourceUrl := Some url |} |}
      | Some items =>
          (* Transform to structured data *)
          let data := map item_row (List.filter has_value items) in
          Fulfilled
            {| r_source := worldbank_id;
               r_dataset := indicatorId;
               data := data;
               metadata :=
                 {| fetchedAt := now;
                    rowCount := of_nat (length data);
                    columns := ["country"; "countryCode"; "year"; "value"; "indicator";
                                "indicatorName"];
                    freshness := Some annual;
                    sourceUrl := Some ("https://data.worldbank.org/indicator/" +:+ indicatorId) |} |}
      end
  end.

Definition getRateLimits : RateLimitInfo :=
  {| requestsPerMinute := 100; requestsPerDay := 50000; currentUsage := None |}.

(** The two endpoints of the API. *)
Record Api := {
  search_api : string -> FetchResult SearchReply;
  indicator_api : string -> FetchResult Reply;
}.

Definition instance (api : Api) (now : Z) : DataSource :=
  {| ds_id := worldbank_id;
     ds_name := "World Bank Open Data";
     ds_category := international;
     ds_description := "Global development indicators for 200+ countries";
     baseUrl := worldbank_baseUrl;
     requiresApiKey := false;
     Types.search := search (search_api api);
     Types.fetch := fetch (indicator_api api) now;
     Types.getDatasets := getDatasets;
     Types.getRateLimits := getRateLimits |}.

End WorldBank.

(* ===================================================================== *)
(** * index.ts: the registry of data sources *)
(* ===================================================================== *)

Module Sources.
Import Js Types.

Record DataSourceConfig := {
  c_id : string;
  c_name : string;
  c_description : string;
  c_requiresApiKey : bool;
  c_category : string;
  getInstance : option string -> DataSource;
}.

(** The remote services and the clock the adapters run against. *)
Record World := {
  census_api : string -> FetchResult Census.Table;
  fred_api : Fred.Api;
  worldbank_api : WorldBank.Api;
  now : Z;
}.

(** The exported singleton [worldBankSource]. *)
Definition worldBankSource (w : World) : DataSource :=
  WorldBank.instance (worldbank_api w) (now w).

Definition DATA_SOURCES (w : World) : list DataSourceConfig := [
  {| c_id := "census";
     c_name := "US Census Bureau";
     c_description := "Official US population, economic, and housing statistics";
     c_requiresApiKey := false;
     c_category := "government";
     getInstance := fun apiKey => Census.instance (census_api w) (now w) apiKey |};
  {| c_id := "fred";
     c_name := "Federal Reserve (FRED)";
     c_description := "Economic data from the Federal Reserve Bank of St. Louis";
     c_requiresApiKey := true;
     c_category := "financial";
     getInstance := fun apiKey => Fred.instance (fred_api w) (now w) (default "" apiKey) |};
  {| c_id := "worldbank";
     c_name := "World Bank";
     c_description := "Global development indicators for 200+ countries";
     c_requiresApiKey := false;
     c_category := "international";
     getInstance := fun _ => worldBankSource w |}
].

(** [getDataSource] over a registry; [None] is [null]. *)
Definition getDataSource_in (registry : list DataSourceConfig)
    (sourceId : string) (apiKeys : gmap string string) : option DataSource :=
  match List.find (fun s => String.eqb (c_id s) sourceId) registry with
  | None => None
  | Some config => Some (getInstance config (apiKeys !! sourceId))
  end.

Definition getDataSource (w : World) := getDataSource_in (DATA_SOURCES w).

(** [results.filter(r => r.status === 'fulfilled').flatMap(r => r.value)] *)
Definition fulfilled_values {A} (results : list (Settled (list A))) : list A :=
  flat_map (fun r => default [] (fulfilled_value r))
           (List.filter is_fulfilled results).

(** [searchAllSources] over a registry.  [order] is the order in which
    the searches settle; the result is [None] as long as one of them has
    not settled. *)
Definition searchAllSources_in (registry : list DataSourceConfig) (order : list nat)
    (query : string) (apiKeys : gmap string string) : option (Settled (list DatasetInfo)) :=
  let sources := map (fun config => getInstance config (apiKeys !! c_id config)) registry in
  match allSettled order (map (fun source => search source query) sources) with
  | Some results => Some (Fulfilled (fulfilled_values results))
  | None => None
  end.

Definition searchAllSources (w : World) := searchAllSources_in (DATA_SOURCES w).

(** [getAllDatasets] over a registry. *)
Definition getAllDatasets_in (registry : list DataSourceConfig) (order : list nat)
    (apiKeys : gmap string string) : option (Settled (list DatasetInfo)) :=
  let sources := map (fun config => getInstance config (apiKeys !! c_id config)) registry in
  match allSettled order (map (fun source => getDatasets source) sources) with
  | Some results => Some (Fulfilled (fulfilled_values results))
  | None => None
  end.

Definition getAllDatasets (w : World) := getAllDatasets_in (DATA_SOURCES w).

End Sources.

(* ===================================================================== *)
(** * useChat.ts: one prompt, several model providers *)
(* ===================================================================== *)

Module Chat.
Import Js.

Record ResponseMetadata := {
  tokensUsed : Z;
  responseTime : Z;
  model : string;
  cost : Q;
}.

Record BatchResponse := {
  providerId : string;
  response : string;
  metadata : ResponseMetadata;
  error : option string;
}.

(** ** The caller's callbacks

    A callback either returns or throws. *)
Inductive Outcome := Returns | Throws (t : Thrown).

Record UseChatOptions := {
  onResponse : option (string -> string -> ResponseMetadata -> Outcome);
  onError : option (string -> string -> Outcome);
  onComplete : option Outcome;
}.

(** ** The providers' wire format *)

(** The JSON body of a request: [{ model, messages: [{ role: 'user',
    content }], max_tokens }]. *)
Record RequestBody := { b_model : string; b_content : string; max_tokens : Z }.

Record Request := {
  endpoint : string;
  headers : list (string * string);
  body : RequestBody;
}.

(** The JSON body of a reply, at the paths the adapters read:
    [choices?.[0]?.message?.content], [content?.[0]?.text],
    [usage?.total_tokens], [usage?.input_tokens], [usage?.output_tokens]
    and [model]. *)
Record Reply := {
  choice_content : option string;
  content_text : option string;
  total_tokens : option Z;
  input_tokens : option Z;
  output_tokens : option Z;
  reply_model : option string;
}.

(** The browser the hook runs in: what a POST is answered with (an
    aborted request is a [NetworkError] carrying an [AbortError]), the
    time that passes between the start of the call to a provider and the
    construction of its outcome, and [window.location.origin]. *)
Record Browser := {
  post : Request -> Types.FetchResult Reply;
  elapsed : string -> Z;
  origin : string;
}.

Record Parsed := {
  content : string;
  p_tokensUsed : option Z;
  p_model : option string;
}.

Record ProviderConfig := {
  c_endpoint : string;
  c_headers : string -> list (string * string);
  c_body : string -> RequestBody;
  parseResponse : Reply -> Parsed;
}.

(** [x || ''] on a string that may be missing *)
Definition or_empty (x : option string) : string := default "" x.

Definition bearer_headers (key : string) : list (string * string) :=
  [("Authorization", "Bearer " +:+ key); ("Content-Type", "application/json")].

Definition chat_body (model msg : string) : RequestBody :=
  {| b_model := model; b_content := msg; max_tokens := 4096 |}.

Definition parse_choices (data : Reply) : Parsed :=
  {| content := or_empty (choice_content data);
     p_tokensUsed := total_tokens data;
     p_model := reply_model data |}.

Definition providerConfigs (browser : Browser) (providerId : string) : option ProviderConfig :=
  if String.eqb providerId "openai" then
    Some {| c_endpoint := "https://api.openai.com/v1/chat/completions";
            c_headers := bearer_headers;
            c_body := chat_body "gpt-4-turbo-preview";
            parseResponse := parse_choices |}
  else if String.eqb providerId "anthropic" then
    Some {| c_endpoint := "https://api.anthropic.com/v1/messages";
            c_headers := fun key =>
              [("x-api-key", key); ("Content-Type", "application/json");
               ("anthropic-version", "2023-06-01")];
            c_body := chat_body "claude-3-5-sonnet-20241022";
            parseResponse := fun data =>
              {| content := or_empty (content_text data);
                 p_tokensUsed :=
                   Some (default 0 (input_tokens data) + default 0 (output_tokens data))%Z;
                 p_model := reply_model data |} |}
  else if String.eqb providerId "openrouter" then
    Some {| c_endpoint := "https://openrouter.ai/api/v1/chat/completions";
            c_headers := fun key => bearer_headers key ++ [("HTTP-Referer", origin browser)];
            c_body := chat_body "anthropic/claude-3.5-sonnet";
            parseResponse := parse_choices |}
  else if String.eqb providerId "grok" then
    Some {| c_endpoint := "https://api.x.ai/v1/chat/completions";
            c_headers := bearer_headers;
            c_body := chat_body "grok-beta";
            parseResponse := parse_choices |}
  else None.

(** Approximate cost calculation per provider. *)
Definition costPer1kTokens (providerId : string) : option Q :=
  if String.eqb providerId "openai" then Some (1 # 100)%Q
  else if String.eqb providerId "anthropic" then Some (15 # 1000)%Q
  else if String.eqb providerId "openrouter" then Some (15 # 1000)%Q
  else if String.eqb providerId "grok" then Some (1 # 100)%Q
  else None.

Definition calculateCost (providerId : string) (tokens : Z) : Q :=
  ((inject_Z tokens / 1000) * default (1 # 100) (costPer1kTokens providerId))%Q.

(** What happened during a dispatch. *)
Inductive Event :=
| CallProvider (providerId : string)
| NetworkCall (request : Request)
| OnResponse (providerId : string)
| OnError (providerId message : string)
| OnComplete.

Record ProviderResult := {
  r_content : string;
  r_tokensUsed : option Z;
  r_model : option string;
  r_cost : Q;
}.

(** [callProvider]: the events it causes, and what it throws or returns. *)
Definition callProvider (browser : Browser) (providerId message apiKey : string)
    : list Event * (Thrown + ProviderResult) :=
  match providerConfigs browser providerId with
  | None =>
      ([CallProvider providerId],
       inl (IsError (new_Error ("Unknown provider: " +:+ providerId))))
  | Some config =>
      let request :=
        {| endpoint := c_endpoint config;
           headers := c_headers config apiKey;
           body := c_body config message |} in
      ([CallProvider providerId; NetworkCall request],
       match post browser request with
       | Types.NetworkError e => inl (IsError e)
       | Types.HttpFailure status statusText _ detail =>
           inl (IsError (new_Error
             (match detail with
              | Some m =>
                  if String.eqb m ""
                  then providerId +:+ " API error: " +:+ pretty status +:+ " " +:+ statusText
                  else m
              | None => providerId +:+ " API error: " +:+ pretty status +:+ " " +:+ statusText
              end)))
       | Types.HttpSuccess (inl e) => inl (IsError e)
       | Types.HttpSuccess (inr data) =>
           let parsed := parseResponse config data in
           (* Calculate approximate cost *)
           let cost := calculateCost providerId (default 0%Z (p_tokensUsed parsed)) in
           inr {| r_content := content parsed;
                  r_tokensUsed := p_tokensUsed parsed;
                  r_model := p_model parsed;
                  r_cost := cost |}
       end)
  end.

(** ** The hook *)

(** The hook's React state; [abortController] tells whether one is set. *)
Record HookState := {
  isLoading : bool;
  hook_error : option string;
  abortController : bool;
}.

(** The failure outcome for a provider. *)
Definition errorResponse (providerId : string) (responseTime : Z) (message : string)
    : BatchResponse :=
  {| providerId := providerId;
     response := "";
     metadata := {| tokensUsed := 0; responseTime := responseTime; model := ""; cost := 0 |};
     error := Some message |}.

(** Report a failure through [onError?.(...)] and return its outcome;
    if the callback throws, the promise of the provider rejects. *)
Definition report_error (options : UseChatOptions) (outcome : BatchResponse) (message : string)
    : list Event * Settled BatchResponse :=
  match onError options with
  | None => ([], Fulfilled outcome)
  | Some callback =>
      ([OnError (providerId outcome) message],
       match callback (providerId outcome) message with
       | Returns => Fulfilled outcome
       | Throws t => Rejected t
       end)
  end.

(** The [catch] clause around the call to a provider. *)
Definition caught (options : UseChatOptions) (browser : Browser) (providerId : string)
    (err : Thrown) : list Event * Settled BatchResponse :=
  let errorMessage := message_of err in
  report_error options (errorResponse providerId (elapsed browser providerId) errorMessage)
               errorMessage.

(** [x || fallback] on a string that may be missing *)
Definition string_or (x : option string) (fallback : string) : string :=
  match x with
  | Some s => if String.eqb s "" then fallback else s
  | None => fallback
  end.

(** The branch taken when [!apiKey]: no call is made. *)
Definition missing_key (options : UseChatOptions) (providerId : string)
    : list Event * Settled BatchResponse :=
  let missing := "No API key configured for " +:+ providerId in
  report_error options (errorResponse providerId 0 missing) missing.

(** The call to a provider with its key, inside [try ... catch]. *)
Definition attempt (options : UseChatOptions) (browser : Browser)
    (message providerId apiKey : string) : list Event * Settled BatchResponse :=
  let '(called, returned) := callProvider browser providerId message apiKey in
  match returned with
  | inr reply =>
      let result :=
        {| providerId := providerId;
           response := r_content reply;
           metadata :=
             {| tokensUsed := default 0%Z (r_tokensUsed reply);
                responseTime := elapsed browser providerId;
                model := string_or (r_model reply) providerId;
                cost := r_cost reply |};
           error := None |} in
      match onResponse options with
      | None => (called, Fulfilled result)
      | Some callback =>
          match callback providerId (response result) (metadata result) with
          | Returns => (called ++ [OnResponse providerId], Fulfilled result)
          | Throws err =>
              let '(reported, settled) := caught options browser providerId err in
              (called ++ [OnResponse providerId] ++ reported, settled)
          end
      end
  | inl err =>
      let '(reported, settled) := caught options browser providerId err in
      (called ++ reported, settled)
  end.

(** The asynchronous function mapped over [providers]. *)
Definition dispatch_one (options : UseChatOptions) (browser : Browser)
    (message : string) (apiKeys : gmap string string) (providerId : string)
    : list Event * Settled BatchResponse :=
  match apiKeys !! providerId with
  | None => missing_key options providerId
  | Some apiKey =>
      if String.eqb apiKey "" then missing_key options providerId
      else attempt options browser message providerId apiKey
  end.

(** What [sendMessage] leaves behind. *)
Record Dispatch := {
  responses : list BatchResponse;
  hook : HookState;
  events : list Event;
}.

Definition settled_state (error : option string) : HookState :=
  {| isLoading := false; hook_error := error; abortController := false |}.

(** [sendMessage].  [order] is the order in which the providers'
    promises settle; the events of the providers are listed provider by
    provider. *)
Definition sendMessage (options : UseChatOptions) (browser : Browser) (order : list nat)
    (message : string) (providers : list string) (apiKeys : gmap string string)
    : option Dispatch :=
  (* Send to each provider in parallel *)
  let promises := map (dispatch_one options browser message apiKeys) providers in
  match allSettled order (map snd promises) with
  | None => None
  | Some results =>
      let responses := omap fulfilled_value results in
      let happened := concat (map fst promises) in
      match onComplete options with
      | None | Some Returns =>
          Some {| responses := responses;
                  hook := settled_state None;
                  events := happened ++ match onComplete options with
                                        | Some _ => [OnComplete]
                                        | None => []
                                        end |}
      | Some (Throws err) =>
          let shown :=
            match err with
            | IsError e =>
                if String.eqb (name e) "AbortError" then "Request cancelled" else Js.message e
            | NotError => "Unknown error"
            end in
          Some {| responses := responses;
                  hook := settled_state (Some shown);
                  events := happened ++ [OnComplete] |}
      end
  end.

(** [streamMessage]: for the MVP, the batch mode; the outcomes are not
    returned. *)
Definition streamMessage (options : UseChatOptions) (browser : Browser) (order : list nat)
    (message : string) (providers : list string) (apiKeys : gmap string string)
    : option (HookState * list Event) :=
  match sendMessage options browser order message providers apiKeys with
  | Some d => Some (hook d, events d)
  | None => None
  end.

(** [cancelRequest]: the controller, if there is one, is aborted and
    dropped; the requests in flight under its signal then reject with an
    [AbortError]. *)
Definition cancelRequest (s : HookState) : HookState :=
  {| isLoading := false; hook_error := hook_error s; abortController := false |}.

(** Successes and failures among the outcomes. *)
Definition is_failure (r : BatchResponse) : bool :=
  match error r with Some _ => true | None => false end.

Definition successes (rs : list BatchResponse) : list BatchResponse :=
  List.filter (fun r => negb (is_failure r)) rs.

Definition failures (rs : list BatchResponse) : list BatchResponse :=
  List.filter is_failure rs.

End Chat.

(* ===================================================================== *)
(** * Notions of the specification *)
(* ===================================================================== *)

Module Spec.
Import Js Types.


(** The freshness warning of the validator. *)
Definition freshness_warning (w : string) : Prop :=
  exists days : Z, w = "Data is " +:+ pretty days +:+ " days old".

(** The empty-result warning of the validator. *)
Definition empty_warning : string := "Query returned no results".

(** A cell is missing when the row has no value for the column, or has
    [undefined], [null] or the empty string. *)
Definition is_missing (c : option Value) : bool :=
  match c with
  | None | Some VUndefined | Some VNull => true
  | Some (VStr s) => String.eqb s ""
  | Some _ => false
  end.

(** The missing cells among the declared columns of one row. *)
Definition missing_in_row (columns : list string) (row : gmap string Value) : nat :=
  length (List.filter (fun c => is_missing (row !! c)) columns).

Definition missing_cells (r : DataResult) : nat :=
  list_sum (map (missing_in_row (columns (metadata r))) (data r)).

Definition total_cells (r : DataResult) : nat :=
  length (data r) * length (columns (metadata r)).

(** The fraction of missing cells, over all rows and declared columns,
    exceeds 10%. *)
Definition missing_rate_over_10_percent (r : DataResult) : Prop :=
  total_cells r < 10 * missing_cells r.


(** What one source of a registry contributes to a search over all of
    them: its matches when its search fulfils, nothing when it rejects. *)
Definition contribution (query : string) (apiKeys : gmap string string)
    (config : Sources.DataSourceConfig) : list DatasetInfo :=
  match search (Sources.getInstance config (apiKeys !! Sources.c_id config)) query with
  | Fulfilled found => found
  | Rejected _ => []
  end.



(** What the [onError] callback does when notified; nothing is notified
    when there is no callback. *)
Definition notified (options : Chat.UseChatOptions) (providerId message : string)
    : Chat.Outcome :=
  match Chat.onError options with
  | None => Chat.Returns
  | Some callback => callback providerId message
  end.

(** The credential map has no key, or an empty one, for the provider. *)
Definition no_credential (apiKeys : gmap string string) (providerId : string) : bool :=
  match apiKeys !! providerId with
  | None => true
  | Some key => String.eqb key ""
  end.

(** The missing-credential outcome for a provider. *)
Definition MissingCredential (providerId : string) : Chat.BatchResponse :=
  Chat.errorResponse providerId 0 ("No API key configured for " +:+ providerId).

(** The browser in which every rejection of [fetch] is a plain [Error]
    with the same message: the [AbortError] of an aborted request has
    lost its name. *)
Definition without_error_names (browser : Chat.Browser) : Chat.Browser :=
  {| Chat.post := fun request =>
       match Chat.post browser request with
       | NetworkError e => NetworkError (new_Error (message e))
       | answer => answer
       end;
     Chat.elapsed := Chat.elapsed browser;
     Chat.origin := Chat.origin browser |}.

End Spec.

(* ===================================================================== *)
(** * Sample inputs *)
(* ===================================================================== *)

Module Samples.
Import Js Types.

(** A candidate result with the given time stamp and rows, and one
    declared column. *)
Definition candidate (fetched : Z) (rows : list Value) : Value :=
  VObj [("source", VStr "census");
        ("dataset", VStr "acs/acs1");
        ("data", VArr rows);
        ("metadata",
         VObj [("fetchedAt", VDate (Some fetched));
               ("rowCount", VNum (of_nat (length rows)));
               ("columns", VArr [VStr "NAME"]);
               ("freshness", VStr "annual")])].

(** What [candidate] parses to. *)
Definition parsed_candidate (fetched : Z) (rows : list (gmap string Value)) : DataResult :=
  {| r_source := "census";
     r_dataset := "acs/acs1";
     data := rows;
     metadata := {| fetchedAt := fetched; rowCount := of_nat (length rows);
                    columns := ["NAME"]; freshness := Some annual; sourceUrl := None |} |}.

(** One row whose only cell is [null]. *)
Definition null_row : Value := VObj [("NAME", VNull)].

(** A reply of the Census API: two states, one without estimate. *)
Definition census_table : Census.Table :=
  {| Census.headers := ["NAME"; "B01001_001E"; "state"];
     Census.rows := [[VStr "Alabama"; VStr "5074296"; VStr "01"];
                     [VStr "Puerto Rico"; VNull; VStr "72"]] |}.

(** A reply of the FRED observations endpoint. *)
Definition fred_observations : Fred.Observations :=
  {| Fred.observations :=
       Some [ {| Fred.o_date := VStr "2023-01-01"; Fred.o_value := VStr "26813.601" |};
              {| Fred.o_date := VStr "2023-04-01"; Fred.o_value := VStr "." |} ];
     Fred.frequency_short := Some "Q" |}.

Definition unreachable : Error := mkError "TypeError" "Failed to fetch".

(** A world in which the Census API and the FRED observations answer and
    every other endpoint is unreachable. *)
Definition world : Sources.World :=
  {| Sources.census_api := fun _ => HttpSuccess (inr census_table);
     Sources.fred_api :=
       {| Fred.search_api := fun _ => NetworkError unreachable;
          Fred.observations_api := fun _ => HttpSuccess (inr fred_observations) |};
     Sources.worldbank_api :=
       {| WorldBank.search_api := fun _ => HttpFailure 503 "Service Unavailable" "" None;
          WorldBank.indicator_api := fun _ => NetworkError unreachable |};
     Sources.now := 1700000000000 |}.

(** A source whose every operation rejects. *)
Definition broken_source : DataSource :=
  {| ds_id := "broken"; ds_name := "Broken"; ds_category := academic;
     ds_description := ""; baseUrl := ""; requiresApiKey := false;
     search := fun _ => Rejected (IsError (new_Error "boom"));
     fetch := fun _ _ => Rejected (IsError (new_Error "boom"));
     getDatasets := Rejected (IsError (new_Error "boom"));
     getRateLimits := {| requestsPerMinute := 0; requestsPerDay := 0; currentUsage := None |} |}.

Definition broken_config : Sources.DataSourceConfig :=
  {| Sources.c_id := "broken"; Sources.c_name := "Broken"; Sources.c_description := "";
     Sources.c_requiresApiKey := false; Sources.c_category := "academic";
     Sources.getInstance := fun _ => broken_source |}.

(** Callbacks: none at all, and an [onError] that throws. *)
Definition quiet : Chat.UseChatOptions :=
  {| Chat.onResponse := None; Chat.onError := None; Chat.onComplete := None |}.

Definition throwing : Chat.UseChatOptions :=
  {| Chat.onResponse := None;
     Chat.onError := Some (fun _ _ => Chat.Throws (IsError (new_Error "QuotaExceededError")));
     Chat.onComplete := None |}.

(** A completion in the shape of the OpenAI API. *)
Definition hello : Chat.Reply :=
  {| Chat.choice_content := Some "hello"; Chat.content_text := None;
     Chat.total_tokens := Some 10%Z; Chat.input_tokens := None; Chat.output_tokens := None;
     Chat.reply_model := Some "gpt-4-turbo" |}.

(** A browser in which every request gets the same answer after 120 ms. *)
Definition browser (answer : FetchResult Chat.Reply) : Chat.Browser :=
  {| Chat.post := fun _ => answer; Chat.elapsed := fun _ => 120%Z;
     Chat.origin := "http://localhost:3000" |}.

(** Credentials for OpenAI only. *)
Definition openai_key : gmap string string := <["openai" := "sk-1"]> ∅.

(** The request [callProvider] sends to OpenAI for the prompt ["hi"]. *)
Definition openai_request : Chat.Request :=
  {| Chat.endpoint := "https://api.openai.com/v1/chat/completions";
     Chat.headers := [("Authorization", "Bearer sk-1"); ("Content-Type", "application/json")];
     Chat.body := {| Chat.b_model := "gpt-4-turbo-preview"; Chat.b_content := "hi";
                     Chat.max_tokens := 4096 |} |}.

End Samples.

(* ===================================================================== *)
(** * census.ts, fred.ts, worldbank.ts: the convenience queries *)
(* ===================================================================== *)

Module Queries.
Import Js Types.

(** The parameters [{ variables, geography, year }], each possibly left
    out. *)
Definition query_params (variables : option (list string)) (geography : option string)
    (year : option Z) : FetchParams :=
  {| p_variables := variables; p_geography := geography; p_year := inl <$> year;
     p_filters := None; p_limit := None; p_offset := None |}.

(** [results.filter(r => r.status === 'fulfilled').map(r => r.value)] *)
Definition fulfilled_results {A} (results : list (Settled A)) : list A :=
  omap fulfilled_value results.

(** ** Census: helper methods.  [year] is the optional argument, 2022 by
    default. *)

(** Get population data for all states *)
Definition getStatePopulations (self : Census.CensusDataSource)
    (http : string -> FetchResult Census.Table) (now : Z) (year : option Z)
    : Settled DataResult :=
  Census.fetch self http now "acs/acs1"
    (query_params (Some ["B01001_001E"; "B01002_001E"]) (Some "state:*")
                  (Some (default 2022%Z year))).

(** Get median household income by state *)
Definition getStateIncomes (self : Census.CensusDataSource)
    (http : string -> FetchResult Census.Table) (now : Z) (year : option Z)
    : Settled DataResult :=
  Census.fetch self http now "acs/acs1"
    (query_params (Some ["B19013_001E"]) (Some "state:*") (Some (default 2022%Z year))).

(** Get demographic data for a specific state *)
Definition getStateDemographics (self : Census.CensusDataSource)
    (http : string -> FetchResult Census.Table) (now : Z) (stateCode : string)
    (year : option Z) : Settled DataResult :=
  Census.fetch self http now "acs/acs1"
    (query_params
       (Some ["B01001_001E"; "B01002_001E"; "B19013_001E"; "B25077_001E"; "B15003_001E"])
       (Some ("state:" +:+ stateCode)) (Some (default 2022%Z year))).

(** Get county-level data for a state *)
Definition getCountyData (self : Census.CensusDataSource)
    (http : string -> FetchResult Census.Table) (now : Z) (stateCode : string)
    (variables : list string) (year : option Z) : Settled DataResult :=
  Census.fetch self http now "acs/acs5"
    (query_params (Some variables) (Some ("county:*&in=state:" +:+ stateCode))
                  (Some (default 2022%Z year))).

(** ** FRED: convenience methods *)

Definition getGDP (self : Fred.FredDataSource) (http : string -> FetchResult Fred.Observations)
    (now : Z) (startYear : option Z) : Settled DataResult :=
  Fred.fetch self http now "GDP" (query_params None None startYear).

Definition getUnemploymentRate (self : Fred.FredDataSource)
    (http : string -> FetchResult Fred.Observations) (now : Z) (startYear : option Z)
    : Settled DataResult :=
  Fred.fetch self http now "UNRATE" (query_params None None startYear).

Definition getInflation (self : Fred.FredDataSource)
    (http : string -> FetchResult Fred.Observations) (now : Z) (startYear : option Z)
    : Settled DataResult :=
  Fred.fetch self http now "CPIAUCSL" (query_params None None startYear).

Definition getFedFundsRate (self : Fred.FredDataSource)
    (http : string -> FetchResult Fred.Observations) (now : Z) (startYear : option Z)
    : Settled DataResult :=
  Fred.fetch self http now "FEDFUNDS" (query_params None None startYear).

(** Get multiple series at once.  [order] is the order in which the
    fetches settle. *)
Definition getMultipleSeries (self : Fred.FredDataSource)
    (http : string -> FetchResult Fred.Observations) (now : Z) (order : list nat)
    (seriesIds : list string) (startYear : option Z) : option (Settled (list DataResult)) :=
  match allSettled order
          (map (fun id => Fred.fetch self http now id (query_params None None startYear))
               seriesIds) with
  | Some results => Some (Fulfilled (fulfilled_results results))
  | None => None
  end.

(** ** World Bank: convenience methods *)

(** Country regions *)
Definition REGIONS : list (string * string) := [
  ("WLD", "World");
  ("EAS", "East Asia & Pacific");
  ("ECS", "Europe & Central Asia");
  ("LCN", "Latin America & Caribbean");
  ("MEA", "Middle East & North Africa");
  ("NAC", "North America");
  ("SAS", "South Asia");
  ("SSF", "Sub-Saharan Africa")
].

(** Major countries *)
Definition MAJOR_COUNTRIES : list (string * string) := [
  ("USA", "United States");
  ("CHN", "China");
  ("JPN", "Japan");
  ("DEU", "Germany");
  ("GBR", "United Kingdom");
  ("FRA", "France");
  ("IND", "India");
  ("ITA", "Italy");
  ("BRA", "Brazil");
  ("CAN", "Canada");
  ("AUS", "Australia");
  ("KOR", "South Korea");
  ("MEX", "Mexico");
  ("RUS", "Russia")
].

(** Get GDP data for all countries *)
Definition getGlobalGDP (http : string -> FetchResult WorldBank.Reply) (now : Z)
    (year : option Z) : Settled DataResult :=
  WorldBank.fetch http now "NY.GDP.MKTP.CD" (query_params None None year).

(** Get data for a specific country *)
Definition getCountryData (http : string -> FetchResult WorldBank.Reply) (now : Z)
    (countryCode indicatorId : string) (startYear : option Z) : Settled DataResult :=
  WorldBank.fetch http now indicatorId (query_params None (Some countryCode) startYear).

(** Get population data; [country] is ['all'] by default *)
Definition getPopulation (http : string -> FetchResult WorldBank.Reply) (now : Z)
    (country : option string) (year : option Z) : Settled DataResult :=
  WorldBank.fetch http now "SP.POP.TOTL" (query_params None (Some (default "all" country)) year).

(** Get comparison data for major economies *)
Definition getMajorEconomies (http : string -> FetchResult WorldBank.Reply) (now : Z)
    (indicatorId : string) (year : option Z) : Settled DataResult :=
  let countries := join ";" (map fst MAJOR_COUNTRIES) in
  WorldBank.fetch http now indicatorId (query_params None (Some countries) year).

(** Get regional data *)
Definition getRegionalData (http : string -> FetchResult WorldBank.Reply) (now : Z)
    (indicatorId : string) (year : option Z) : Settled DataResult :=
  let regions := join ";" (map fst REGIONS) in
  WorldBank.fetch http now indicatorId (query_params None (Some regions) year).

(** The indicators of a country profile. *)
Definition profile_indicators : list string :=
  ["NY.GDP.MKTP.CD"; "NY.GDP.PCAP.CD"; "SP.POP.TOTL"; "SL.UEM.TOTL.ZS"; "FP.CPI.TOTL.ZG";
   "SP.DYN.LE00.IN"].

(** Compare multiple indicators for a country.  [order] is the order in
    which the fetches settle. *)
Definition getCountryProfile (http : string -> FetchResult WorldBank.Reply) (now : Z)
    (order : list nat) (countryCode : string) (year : option Z)
    : option (Settled (list DataResult)) :=
  match allSettled order
          (map (fun id => WorldBank.fetch http now id
                            (query_params None (Some countryCode) year))
               profile_indicators) with
  | Some results => Some (Fulfilled (fulfilled_results results))
  | None => None
  end.

End Queries.

(* ===================================================================== *)
(** * From an adapter to the validator *)
(* ===================================================================== *)

Module Pipeline.
Import Js Types.





End Pipeline.

(* ===================================================================== *)
(** * MultiAgentChat.tsx: the caller of the hook *)
(* ===================================================================== *)

Module MultiAgentChat.
Import Js.


(** [handleProviderToggle]: the new list of active providers. *)
Definition handleProviderToggle (activeProviders : list string) (providerId : string)
    (enabled : bool) : list string :=
  if enabled then activeProviders ++ [providerId]
  else List.filter (fun id => negb (String.eqb id providerId)) activeProviders.

End MultiAgentChat.

(* ===================================================================== *)
(** * chat-store.ts: the store the callbacks of the chat write to *)
(* ===================================================================== *)

Module ChatStore.
Import Js.

(** A [ChatMessage], as the object it is at run time. *)
Definition ChatMessage : Type := gmap string Value.

Record ChatSession := {
  s_id : string;
  title : string;
  s_messages : list ChatMessage;
  activeProviders : list string;
  createdAt : Z;
  updatedAt : Z;
}.

(** The state of the store. *)
Record State := {
  messages : list ChatMessage;
  sessions : list ChatSession;
  (** [string | null] *)
  currentSessionId : option string;
  isStreaming : bool;
}.

Definition defaultProviders : list string := ["openai"].

Definition initial : State :=
  {| messages := []; sessions := []; currentSessionId := None; isStreaming := false |}.

Definition addMessage (message : ChatMessage) (state : State) : State :=
  {| messages := messages state ++ [message];
     sessions := sessions state;
     currentSessionId := currentSessionId state;
     isStreaming := isStreaming state |}.

(** [m.id === messageId] *)
Definition has_id (messageId : string) (m : ChatMessage) : bool :=
  match m !! "id" with
  | Some (VStr s) => String.eqb s messageId
  | _ => false
  end.

(** [{ ...m, ...updates }]: the properties of [updates] win. *)
Definition updateMessage (messageId : string) (updates : gmap string Value) (state : State)
    : State :=
  {| messages := map (fun m => if has_id messageId m then updates ∪ m else m) (messages state);
     sessions := sessions state;
     currentSessionId := currentSessionId state;
     isStreaming := isStreaming state |}.

Definition clearMessages (state : State) : State :=
  {| messages := [];
     sessions := sessions state;
     currentSessionId := currentSessionId state;
     isStreaming := isStreaming state |}.

(** [createSession]: the id returned and the new state.  [now] is the
    value of [Date.now()], [created] and [updated] are the instants of
    the two [new Date()]. *)
Definition createSession (now created updated : Z) (given : option string) (state : State)
    : string * State :=
  let sessionId := "session-" +:+ pretty now in
  let newSession :=
    {| s_id := sessionId;
       title := match given with
                | Some t =>
                    if String.eqb t "" then "Chat " +:+ pretty (length (sessions state) + 1)
                    else t
                | None => "Chat " +:+ pretty (length (sessions state) + 1)
                end;
       s_messages := [];
       activeProviders := defaultProviders;
       createdAt := created;
       updatedAt := updated |} in
  (sessionId,
   {| messages := [];
      sessions := sessions state ++ [newSession];
      currentSessionId := Some sessionId;
      isStreaming := isStreaming state |}).

Definition deleteSession (sessionId : string) (state : State) : State :=
  let updatedSessions :=
    List.filter (fun s => negb (String.eqb (s_id s) sessionId)) (sessions state) in
  let newCurrentSession : option string :=
    match currentSessionId state with
    | Some current =>
        if String.eqb current sessionId
        then match updatedSessions with
             | first :: _ => if String.eqb (s_id first) "" then None else Some (s_id first)
             | [] => None
             end
        else Some current
    | None => None
    end in
  {| messages :=
       match newCurrentSession with
       | Some current =>
           if String.eqb current "" then []
           else match List.find (fun s => String.eqb (s_id s) current) updatedSessions with
                | Some session => s_messages session
                | None => []
                end
       | None => []
       end;
     sessions := updatedSessions;
     currentSessionId := newCurrentSession;
     isStreaming := isStreaming state |}.

Definition switchSession (sessionId : string) (state : State) : State :=
  match List.find (fun s => String.eqb (s_id s) sessionId) (sessions state) with
  | Some session =>
      {| messages := s_messages session;
         sessions := sessions state;
         currentSessionId := Some sessionId;
         isStreaming := isStreaming state |}
  | None => state
  end.

Definition setStreaming (streaming : bool) (state : State) : State :=
  {| messages := messages state;
     sessions := sessions state;
     currentSessionId := currentSessionId state;
     isStreaming := streaming |}.


(** The actions of the store, and a run of them from the initial state. *)
Inductive Action :=
| AddMessage (message : ChatMessage)
| UpdateMessage (messageId : string) (updates : gmap string Value)
| ClearMessages
| CreateSession (now created updated : Z) (given : option string)
| DeleteSession (sessionId : string)
| SwitchSession (sessionId : string)
| SetStreaming (streaming : bool).

Definition act (state : State) (a : Action) : State :=
  match a with
  | AddMessage message => addMessage message state
  | UpdateMessage messageId updates => updateMessage messageId updates state
  | ClearMessages => clearMessages state
  | CreateSession now created updated given =>
      (createSession now created updated given state).2
  | DeleteSession sessionId => deleteSession sessionId state
  | SwitchSession sessionId => switchSession sessionId state
  | SetStreaming streaming => setStreaming streaming state
  end.

Definition run (actions : list Action) : State := foldl act initial actions.

End ChatStore.

(* ===================================================================== *)
(** * Further sample inputs *)
(* ===================================================================== *)

Module MoreSamples.
Import Js Types.

(** A World Bank reply: the population of two countries, one of them
    without value. *)
Definition population_item (code name : string) (year : string) (value : Value)
    : WorldBank.Item :=
  {| WorldBank.country_id := VStr code;
     WorldBank.country_value := VStr name;
     WorldBank.countryiso3code := VStr code;
     WorldBank.date := year;
     WorldBank.value := value;
     WorldBank.indicator_id := VStr "SP.POP.TOTL";
     WorldBank.indicator_value := VStr "Population, total" |}.

Definition population_reply : WorldBank.Reply :=
  {| WorldBank.rawData :=
       Some [population_item "FRA" "France" "2022" (VNum (of_Z 67971311));
             population_item "ERI" "Eritrea" "2022" VNull] |}.

(** A World Bank endpoint that answers with [population_reply]. *)
Definition population_api : string -> FetchResult WorldBank.Reply :=
  fun _ => HttpSuccess (inr population_reply).

(** A FRED observations endpoint that knows the series [GDP] only. *)
Definition gdp_only : string -> FetchResult Fred.Observations :=
  fun url =>
    if includes url "series_id=GDP&"
    then HttpSuccess (inr Samples.fred_observations)
    else HttpFailure 400 "Bad Request" "" (Some "The series does not exist.").

(** A live answer of the FRED search endpoint. *)
Definition fred_search_reply : Fred.SearchReply :=
  {| Fred.seriess :=
       Some [ {| Fred.s_id := "GDPC1"; Fred.title := "Real Gross Domestic Product";
                 Fred.notes := None; Fred.last_updated := Some 1700000000000%Z |} ] |}.

End MoreSamples.

(* ===================================================================== *)
(** * Properties *)
(* ===================================================================== *)

(** ** The run time *)

Section AllSettled.
Context {A : Type}.
Implicit Types (promises : list (Js.Settled A)) (slots : list (option (Js.Settled A))).

Lemma settle_slot_length promises slots i :
  length (Js.settle_slot promises slots i) = length slots.
Proof.
  unfold Js.settle_slot. destruct (promises !! i); [apply length_insert | done].
Qed.

Lemma settle_all_length promises order slots :
  length (foldl (Js.settle_slot promises) slots order) = length slots.
Proof.
  revert slots. induction order as [|j order IH]; intros slots; simpl; [done|].
  rewrite IH. apply settle_slot_length.
Qed.

(** After the promises of [order] have settled, the slots named in
    [order] hold their outcomes and the others are untouched. *)
Lemma settle_all_lookup promises order slots i :
  length slots = length promises ->
  (i ∈ order -> foldl (Js.settle_slot promises) slots order !! i = Some <$> promises !! i)
  /\ (i ∉ order -> foldl (Js.settle_slot promises) slots order !! i = slots !! i).
Proof.
  revert slots. induction order as [|j order IH]; intros slots Hlen; simpl.
  - split; [intros Hin; inversion Hin | done].
  - assert (Hlen' : length (Js.settle_slot promises slots j) = length promises)
      by (rewrite settle_slot_length; done).
    destruct (IH _ Hlen') as [IHin IHout].
    assert (Hj : Js.settle_slot promises slots j !! j = Some <$> promises !! j).
    { unfold Js.settle_slot. destruct (promises !! j) as [r|] eqn:Hr; simpl.
      - apply list_lookup_insert_eq. rewrite Hlen. by eapply lookup_lt_Some.
      - apply lookup_ge_None. rewrite Hlen. by apply lookup_ge_None. }
    split.
    + intros Hin. destruct (decide (i ∈ order)) as [Hrest|Hrest]; [by apply IHin|].
      rewrite (IHout Hrest). apply elem_of_cons in Hin as [->|Hin]; [done|contradiction].
    + intros Hout. apply not_elem_of_cons in Hout as [Hne Hrest].
      rewrite (IHout Hrest). unfold Js.settle_slot.
      destruct (promises !! j); [|done]. by apply list_lookup_insert_ne.
Qed.

Lemma settles_each_elem n order i :
  Js.settles_each n order = true -> i < n -> i ∈ order.
Proof.
  unfold Js.settles_each. rewrite forallb_forall. intros Hall Hi.
  specialize (Hall i). rewrite in_seq in Hall.
  destruct (existsb_exists (Nat.eqb i) order) as [Hex _].
  destruct Hex as (j & Hj & Heq); [apply Hall; lia|].
  apply Nat.eqb_eq in Heq as ->. by apply list_elem_of_In.
Qed.

(** [Promise.allSettled] resolves, in whatever order its promises settle,
    with their outcomes in input order. *)
Lemma allSettled_input_order promises order :
  Js.settles_each (length promises) order = true ->
  Js.allSettled order promises = Some promises.
Proof.
  intros Hall. unfold Js.allSettled.
  assert (Hslots : foldl (Js.settle_slot promises) (replicate (length promises) None) order
                   = Some <$> promises).
  { apply list_eq. intros i. rewrite list_lookup_fmap.
    destruct (decide (i < length promises)) as [Hi|Hi].
    - apply settle_all_lookup; [apply length_replicate|].
      by eapply settles_each_elem.
    - rewrite (lookup_ge_None_2 promises) by lia. simpl.
      apply lookup_ge_None. rewrite settle_all_length, length_replicate. lia. }
  rewrite Hslots. apply mapM_Some.
  apply Forall2_fmap_l, Forall_Forall2_diag, Forall_forall. done.
Qed.

End AllSettled.

Section Strings.



(** Replacing the empty pattern puts the replacement in front. *)
Lemma replace_empty_pattern s replacement :
  Js.replace s "" replacement = replacement +:+ s.
Proof. by destruct s. Qed.

End Strings.

(** ** The validator *)

Section Validator.
Import Js Types Spec.

(** The age in days exceeds 30 exactly when more than 30 days' worth of
    milliseconds have passed. *)
Lemma age_over_30 (elapsed : Z) :
  (30 < inject_Z elapsed / inject_Z MS_PER_DAY)%Q <-> (30 * MS_PER_DAY < elapsed)%Z.
Proof.
  unfold Qlt, Qdiv, Qmult, Qinv, inject_Z, MS_PER_DAY. simpl. lia.
Qed.


(** The warnings of a structurally valid candidate. *)
Lemma warnings_valid now candidate result :
  DataResultSchema candidate = inr result ->
  warnings (validateDataResult now candidate)
  = (if Qlt_le_dec 30 (inject_Z (now - fetchedAt (metadata result)) / inject_Z MS_PER_DAY)
     then ["Data is "
           +:+ pretty (Qfloor (inject_Z (now - fetchedAt (metadata result)) / inject_Z MS_PER_DAY))
           +:+ " days old"]
     else [])
    ++ (if (length (data result) =? 0)%nat then [empty_warning] else []).
Proof.
  intros Hparse. unfold validateDataResult. rewrite Hparse. simpl.
  destruct (Qlt_le_dec _ _); destruct (_ =? _)%nat; reflexivity.
Qed.




Lemma no_rows_no_missing_cells result : data result = [] -> missing_cells result = 0.
Proof. unfold missing_cells. by intros ->. Qed.

(** C4, as stated, fails: a fresh candidate whose only cell is [null]
    (100% of the cells missing) gets no warning at all. *)
Lemma no_missing_value_warning_counterexample :
  DataResultSchema (Samples.candidate 0 [Samples.null_row])
  = inr (Samples.parsed_candidate 0 [list_to_map [("NAME", VNull)]])
  /\ missing_rate_over_10_percent (Samples.parsed_candidate 0 [list_to_map [("NAME", VNull)]])
  /\ warnings (validateDataResult 0 (Samples.candidate 0 [Samples.null_row])) = [].
Proof.
  split; [reflexivity|]. split; [|reflexivity].
  unfold missing_rate_over_10_percent. vm_compute. lia.
Qed.

(** C4, amended. For every structurally valid candidate, whatever the
    fraction of its null or empty cells, every warning returned is the
    freshness warning or the empty-result warning; a candidate with more
    than 10% of its cells missing that is at most 30 days old gets no
    warning. *)
Theorem warnings_ignore_missing_values now candidate result :
  DataResultSchema candidate = inr result ->
  (forall w, w ∈ warnings (validateDataResult now candidate) ->
             freshness_warning w \/ w = empty_warning)
  /\ (missing_rate_over_10_percent result ->
      (now - fetchedAt (metadata result) <= 30 * MS_PER_DAY)%Z ->
      warnings (validateDataResult now candidate) = []).
Proof.
  intros Hparse. rewrite (warnings_valid _ _ _ Hparse). split.
  - intros w Hin. apply elem_of_app in Hin as [Hin|Hin].
    + destruct (Qlt_le_dec _ _); [|by inversion Hin].
      apply list_elem_of_singleton in Hin as ->. left. eexists. reflexivity.
    + destruct (_ =? _)%nat; [|by inversion Hin].
      apply list_elem_of_singleton in Hin as ->. by right.
  - intros Hrate Hage.
    destruct (Qlt_le_dec _ _) as [Hold|_]; [pose proof (proj1 (age_over_30 _) Hold); lia|].
    destruct (length (data result) =? 0)%nat eqn:Hrows; [|done].
    apply Nat.eqb_eq, nil_length_inv in Hrows.
    unfold missing_rate_over_10_percent, total_cells in Hrate.
    rewrite (no_rows_no_missing_cells _ Hrows), Hrows in Hrate. simpl in Hrate. lia.
Qed.

Lemma warnings_ignore_missing_values_witness :
  DataResultSchema (Samples.candidate 0 [Samples.null_row])
  = inr (Samples.parsed_candidate 0 [list_to_map [("NAME", VNull)]])
  /\ (forall w, w ∈ warnings (validateDataResult MS_PER_DAY (Samples.candidate 0 [Samples.null_row])) ->
                freshness_warning w \/ w = empty_warning)
  /\ warnings (validateDataResult MS_PER_DAY (Samples.candidate 0 [Samples.null_row])) = [].
Proof.
  split; [reflexivity|].
  destruct (warnings_ignore_missing_values MS_PER_DAY (Samples.candidate 0 [Samples.null_row])
              (Samples.parsed_candidate 0 [list_to_map [("NAME", VNull)]]))
    as [Honly Hnone]; [reflexivity|].
  split; [exact Honly|].
  apply Hnone; [unfold missing_rate_over_10_percent; vm_compute; lia | vm_compute; discriminate].
Defined.

End Validator.

(** ** The registry *)

Section Registry.
Import Js Types Sources Spec.

Lemma fulfilled_values_contributions {A B} (f : A -> Settled (list B)) (xs : list A) :
  fulfilled_values (map f xs)
  = flat_map (fun x => match f x with Fulfilled found => found | Rejected _ => [] end) xs.
Proof.
  unfold fulfilled_values. induction xs as [|x xs IH]; simpl; [done|].
  destruct (f x); simpl; by rewrite IH.
Qed.

(** The search over a registry resolves with the contributions of its
    sources, in registry order. *)
Lemma searchAllSources_in_contributions registry order query apiKeys :
  settles_each (length registry) order = true ->
  searchAllSources_in registry order query apiKeys
  = Some (Fulfilled (flat_map (contribution query apiKeys) registry)).
Proof.
  intros Hall. unfold searchAllSources_in.
  rewrite allSettled_input_order by (by rewrite !length_map).
  rewrite map_map. do 2 f_equal.
  apply (fulfilled_values_contributions
           (fun config => search (getInstance config (apiKeys !! c_id config)) query)).
Qed.

(** C5. [searchAllSources], over any registry and for any query, resolves
    with the concatenation of the matches of the sources whose search
    fulfils, in registry order whatever the order in which the searches
    settle; a source whose search rejects contributes nothing, raises
    nothing, and the result is the one obtained without that source. *)
Theorem searchAll_concatenates_in_registry_order registry order query apiKeys :
  settles_each (length registry) order = true ->
  searchAllSources_in registry order query apiKeys
  = Some (Fulfilled (flat_map (contribution query apiKeys) registry))
  /\ forall before failing after order' reason,
       registry = before ++ failing :: after ->
       search (getInstance failing (apiKeys !! c_id failing)) query = Rejected reason ->
       settles_each (length (before ++ after)) order' = true ->
       contribution query apiKeys failing = []
       /\ searchAllSources_in registry order query apiKeys
          = searchAllSources_in (before ++ after) order' query apiKeys.
Proof.
  intros Hall. split; [by apply searchAllSources_in_contributions|].
  intros before failing after order' reason -> Hfail Hall'.
  assert (Hnone : contribution query apiKeys failing = [])
    by (unfold contribution; by rewrite Hfail).
  rewrite !searchAllSources_in_contributions by done.
  split; [done|]. do 2 f_equal. rewrite !flat_map_app. simpl. by rewrite Hnone.
Qed.

Lemma searchAll_concatenates_in_registry_order_witness :
  searchAllSources_in (Samples.broken_config :: DATA_SOURCES Samples.world) [3; 1; 0; 2]
                      "poverty" ∅
  = Some (Fulfilled (flat_map (contribution "poverty" ∅)
                              (Samples.broken_config :: DATA_SOURCES Samples.world)))
  /\ searchAllSources_in (Samples.broken_config :: DATA_SOURCES Samples.world) [3; 1; 0; 2]
                         "poverty" ∅
     = searchAllSources_in (DATA_SOURCES Samples.world) [2; 0; 1] "poverty" ∅.
Proof.
  destruct (searchAll_concatenates_in_registry_order
              (Samples.broken_config :: DATA_SOURCES Samples.world) [3; 1; 0; 2] "poverty" ∅)
    as [Hall Hwithout]; [reflexivity|].
  split; [exact Hall|].
  apply (Hwithout [] Samples.broken_config (DATA_SOURCES Samples.world) [2; 0; 1]
                  (IsError (new_Error "boom"))); reflexivity.
Defined.

Example searchAll_poverty :
  searchAllSources Samples.world [2; 0; 1] "poverty" ∅
  = Some (Fulfilled
            [dataset "acs/acs5:B17001_001E" "Poverty Status" "ACS variable: B17001_001E"
                     "census" government;
             dataset "SI.POV.DDAY" "Poverty headcount ratio"
                     "Population below $2.15/day (2017 PPP)" "worldbank" international]).
Proof. reflexivity. Qed.

(** X2. With the three sources of the repository no search rejects:
    [searchAllSources] resolves with the matches of the Census Bureau,
    then those of FRED, then those of the World Bank, whatever the
    endpoints answer. *)
Lemma searchAllSources_three_sources w order query apiKeys :
  settles_each 3 order = true ->
  exists census fred worldbank,
    Census.search query = Fulfilled census
    /\ Fred.search {| Fred.apiKey := default "" (apiKeys !! "fred") |}
                   (Fred.search_api (fred_api w)) query = Fulfilled fred
    /\ WorldBank.search (WorldBank.search_api (worldbank_api w)) query = Fulfilled worldbank
    /\ searchAllSources w order query apiKeys = Some (Fulfilled (census ++ fred ++ worldbank)).
Proof.
  intros Hall. unfold searchAllSources.
  rewrite searchAllSources_in_contributions by done.
  unfold contribution, DATA_SOURCES. simpl.
  unfold Fred.search, WorldBank.search.
  destruct (Fred.search_api _ _) as [?|? ? ? ?|[?|?]];
    destruct (WorldBank.search_api _ _) as [?|? ? ? ?|[?|[[?|]]]];
    do 3 eexists; rewrite app_nil_r; done.
Qed.

End Registry.

(** ** The adapters: search *)

Section Search.
Import Js Types Spec.






Example worldbank_fallback_inflation :
  WorldBank.search (WorldBank.search_api (Sources.worldbank_api Samples.world)) "INFLATION"
  = Fulfilled [dataset "FP.CPI.TOTL.ZG" "Inflation (consumer prices)" "Annual inflation rate"
                       "worldbank" international].
Proof. reflexivity. Qed.

End Search.

(** ** The adapters: fetch *)

Section Fetch.
Import Js Types Spec.

Lemma census_fetch_fulfilled self http now datasetId params r :
  Census.fetch self http now datasetId params = Fulfilled r ->
  exists table,
    http (Census.request_url self datasetId params) = HttpSuccess (inr table)
    /\ data r = map (Census.row_object (Census.headers table)) (Census.rows table)
    /\ rowCount (metadata r) = of_nat (length (data r))
    /\ sourceUrl (metadata r)
       = Some (replace (Census.request_url self datasetId params)
                       (Census.key_or_empty self) "[API_KEY]").
Proof.
  unfold Census.fetch, Census.fetch_failure.
  destruct (http _) as [?|? ? ? ?|[?|table]]; intros Hr; try discriminate.
  injection Hr as <-. by exists table.
Qed.

Lemma fred_fetch_fulfilled self http now seriesId params r :
  Fred.fetch self http now seriesId params = Fulfilled r ->
  exists body,
    http (Fred.observations_url self seriesId params) = HttpSuccess (inr body)
    /\ data r = map (Fred.observation_row seriesId) (default [] (Fred.observations body))
    /\ rowCount (metadata r) = of_nat (length (data r)).
Proof.
  unfold Fred.fetch, Fred.fetch_failure.
  destruct (http _) as [?|? ? ? ?|[?|body]]; intros Hr; try discriminate.
  injection Hr as <-. by exists body.
Qed.




(** A World Bank reply without data gives a result without rows. *)
Example worldbank_no_rows http now indicatorId params :
  http (WorldBank.request_url indicatorId params) = HttpSuccess (inr {| WorldBank.rawData := None |}) ->
  exists r, WorldBank.fetch http now indicatorId params = Fulfilled r
            /\ data r = [] /\ rowCount (metadata r) = of_Z 0.
Proof. intros Hreply. unfold WorldBank.fetch. rewrite Hreply. by eexists. Qed.

(** *** The source URL of a Census result *)

(** C7, the code at a request without credential: the source URL is the
    request URL with [[API_KEY]] put in front, not the request URL itself;
    and at a request whose credential also occurs earlier in the URL: only
    that first occurrence is replaced, and the credential stays in the
    source URL. *)
Theorem census_sourceUrl_redaction :
  Census.request_url {| Census.apiKey := None |} "acs/acs1" no_params
  = "https://api.census.gov/data/2022/acs/acs1?get=B01001_001E%2CNAME&for=state%3A*"
  /\ (exists r,
        Census.fetch {| Census.apiKey := None |} (Sources.census_api Samples.world) 0
                     "acs/acs1" no_params = Fulfilled r
        /\ sourceUrl (metadata r)
           = Some "[API_KEY]https://api.census.gov/data/2022/acs/acs1?get=B01001_001E%2CNAME&for=state%3A*")
  /\ (exists r url,
        Census.fetch {| Census.apiKey := Some "data" |} (Sources.census_api Samples.world) 0
                     "acs/acs1" no_params = Fulfilled r
        /\ sourceUrl (metadata r) = Some url
        /\ url = "https://api.census.gov/[API_KEY]/2022/acs/acs1?get=B01001_001E%2CNAME&for=state%3A*&key=data"
        /\ includes url "data" = true).
Proof.
  split; [reflexivity|]. split; [eexists; split; reflexivity|].
  do 2 eexists. repeat split; reflexivity.
Qed.

(** Without credential the source URL is never the request URL. *)
Lemma census_sourceUrl_without_key http now datasetId params r :
  Census.fetch {| Census.apiKey := None |} http now datasetId params = Fulfilled r ->
  sourceUrl (metadata r)
  = Some ("[API_KEY]" +:+ Census.request_url {| Census.apiKey := None |} datasetId params).
Proof.
  intros Hfetch. destruct (census_fetch_fulfilled _ _ _ _ _ _ Hfetch) as (_ & _ & _ & _ & ->).
  unfold Census.key_or_empty. cbn [Census.apiKey]. by rewrite replace_empty_pattern.
Qed.

End Fetch.

(** ** The adapters: cells *)

Section Cells.
Import Js Types Spec.









Example census_cells :
  Census.row_object ["NAME"; "B01001_001E"; "state"] [VStr "Alabama"; VStr "5074296"; VStr "01"]
  !! "B01001_001E" = Some (VNum (Finite 5074296 0))
  /\ Census.convert (VStr "Alabama") = VStr "Alabama"
  /\ Census.convert (VStr "") = VNum (Finite 0 0)
  /\ Census.convert VNull = VNum (Finite 0 0).
Proof. repeat split; reflexivity. Qed.

Example fred_cells :
  Fred.observation_value (VStr ".") = VNull
  /\ Fred.observation_value (VStr "26813.601") = VNum (Finite 26813601 (-3))
  /\ Fred.observation_value (VStr "n/a") = VNum NaN.
Proof. repeat split; reflexivity. Qed.

End Cells.

(** ** The chat hook *)

Section Dispatch.
Import Js Chat Spec.

Lemma report_error_returns options outcome message :
  notified options (providerId outcome) message = Returns ->
  (report_error options outcome message).2 = Fulfilled outcome.
Proof.
  unfold notified, report_error. destruct (onError options) as [callback|]; [|done].
  simpl. by intros ->.
Qed.

(** Reporting a failure makes no call. *)
Lemma report_error_events options outcome message e :
  e ∈ (report_error options outcome message).1 -> e = OnError (providerId outcome) message.
Proof.
  unfold report_error. destruct (onError options); simpl; intros Hin.
  - by apply list_elem_of_singleton in Hin.
  - inversion Hin.
Qed.





Lemma missing_key_events options p e :
  e ∈ (missing_key options p).1 ->
  e = OnError p ("No API key configured for " +:+ p).
Proof. unfold missing_key. apply report_error_events. Qed.


(** When [onError] returns, the promise of a provider fulfils with an
    outcome for that provider. *)
Lemma dispatch_one_fulfils options browser message apiKeys p :
  (forall m, notified options p m = Returns) ->
  exists outcome,
    (dispatch_one options browser message apiKeys p).2 = Fulfilled outcome
    /\ providerId outcome = p.
Proof.
  intros Hreturns.
  assert (Hcaught : forall err, exists outcome,
             (caught options browser p err).2 = Fulfilled outcome /\ providerId outcome = p).
  { intros err. eexists. split; [apply report_error_returns, Hreturns|done]. }
  assert (Hmissing : exists outcome,
             (missing_key options p).2 = Fulfilled outcome /\ providerId outcome = p).
  { eexists. split; [apply report_error_returns, Hreturns|done]. }
  unfold dispatch_one. destruct (apiKeys !! p) as [key|]; [|done].
  destruct (String.eqb key ""); [done|].
  unfold attempt. destruct (callProvider browser p message key) as [called [err|reply]].
  - specialize (Hcaught err). by destruct (caught options browser p err).
  - destruct (onResponse options) as [callback|]; [|by eexists].
    destruct (callback _ _ _) as [|err]; [by eexists|].
    specialize (Hcaught err). by destruct (caught options browser p err).
Qed.

(** [sendMessage] returns the outcomes of the promises that fulfilled, in
    the order of the providers. *)
Lemma sendMessage_responses options browser order message providers apiKeys :
  settles_each (length providers) order = true ->
  exists d,
    sendMessage options browser order message providers apiKeys = Some d
    /\ responses d
       = omap (fun p => fulfilled_value (dispatch_one options browser message apiKeys p).2)
              providers
    /\ forall e, e ∈ events d ->
         e = OnComplete
         \/ exists p, p ∈ providers /\ e ∈ (dispatch_one options browser message apiKeys p).1.
Proof.
  intros Hall. unfold sendMessage.
  rewrite allSettled_input_order by (by rewrite !length_map).
  assert (Hresponses :
    omap fulfilled_value (map snd (map (dispatch_one options browser message apiKeys) providers))
    = omap (fun p => fulfilled_value (dispatch_one options browser message apiKeys p).2) providers).
  { clear Hall. induction providers as [|p providers IH]; [done|].
    cbn [map omap list_omap]. by rewrite IH. }
  assert (Hevents : forall e,
    e ∈ concat (map fst (map (dispatch_one options browser message apiKeys) providers)) ->
    exists p, p ∈ providers /\ e ∈ (dispatch_one options browser message apiKeys p).1).
  { intros e Hin. apply list_elem_of_In, in_concat in Hin as (es & Hes & He).
    apply in_map_iff in Hes as (pr & <- & Hpr).
    apply in_map_iff in Hpr as (p & <- & Hp).
    exists p. split; by apply list_elem_of_In. }
  destruct (onComplete options) as [[|err]|]; eexists; (split; [reflexivity|]);
    (split; [exact Hresponses|]); simpl; intros e Hin.
  - apply elem_of_app in Hin as [Hin|Hin]; [right; by apply Hevents|].
    apply list_elem_of_singleton in Hin. by left.
  - apply elem_of_app in Hin as [Hin|Hin]; [right; by apply Hevents|].
    apply list_elem_of_singleton in Hin. by left.
  - rewrite app_nil_r in Hin. right. by apply Hevents.
Qed.

Lemma successes_and_failures (rs : list BatchResponse) :
  length (successes rs) + length (failures rs) = length rs.
Proof.
  unfold successes, failures. induction rs as [|r rs IH]; simpl; [done|].
  destruct (is_failure r); simpl; lia.
Qed.

End Dispatch.

Section Outcomes.
Import Js Chat Spec.

(** C1, as stated, fails: when the [onError] callback throws, the promise
    of a failing provider rejects and its outcome is left out. *)
Lemma dropped_outcome_counterexample :
  exists d,
    sendMessage Samples.throwing (Samples.browser (Types.HttpSuccess (inr Samples.hello)))
                [0] "hi" ["anthropic"] Samples.openai_key = Some d
    /\ responses d = []
    /\ length (successes (responses d)) + length (failures (responses d))
       <> length ["anthropic"].
Proof. eexists. split; [reflexivity|]. split; [reflexivity|]. vm_compute. lia. Qed.

(** C1, amended. For every dispatch in which the [onError] callback, if
    there is one, returns whenever it is called, the list returned holds
    exactly one outcome per requested provider id, in the order of the
    request, and successes plus failures number as many as the ids. *)
Theorem one_outcome_per_provider options browser order message providers apiKeys :
  (forall p m, notified options p m = Returns) ->
  settles_each (length providers) order = true ->
  exists d,
    sendMessage options browser order message providers apiKeys = Some d
    /\ map providerId (responses d) = providers
    /\ length (successes (responses d)) + length (failures (responses d)) = length providers.
Proof.
  intros Hreturns Hall.
  destruct (sendMessage_responses options browser order message providers apiKeys Hall)
    as (d & Hd & Hresponses & _).
  exists d. split; [done|].
  assert (Hids : map providerId (responses d) = providers).
  { rewrite Hresponses. clear -Hreturns. induction providers as [|p providers IH]; [done|].
    cbn [omap list_omap].
    destruct (dispatch_one_fulfils options browser message apiKeys p (Hreturns p))
      as (outcome & -> & Hid).
    simpl. by rewrite IH, Hid. }
  split; [done|].
  rewrite successes_and_failures, <- Hids. by rewrite length_map.
Qed.

Lemma one_outcome_per_provider_witness :
  exists d,
    sendMessage Samples.quiet (Samples.browser (Types.HttpSuccess (inr Samples.hello)))
                [1; 0] "hi" ["openai"; "anthropic"] Samples.openai_key = Some d
    /\ map providerId (responses d) = ["openai"; "anthropic"]
    /\ length (successes (responses d)) + length (failures (responses d)) = 2.
Proof.
  apply (one_outcome_per_provider Samples.quiet
           (Samples.browser (Types.HttpSuccess (inr Samples.hello)))
           [1; 0] "hi" ["openai"; "anthropic"] Samples.openai_key); reflexivity.
Defined.




(** The scenario of the specification: one success, one missing
    credential. *)
Example one_success_one_missing_credential :
  exists d,
    sendMessage Samples.quiet (Samples.browser (Types.HttpSuccess (inr Samples.hello)))
                [1; 0] "hi" ["openai"; "anthropic"] Samples.openai_key = Some d
    /\ successes (responses d)
       = [ {| providerId := "openai"; response := "hello";
              metadata := {| tokensUsed := 10; responseTime := 120; model := "gpt-4-turbo";
                             cost := calculateCost "openai" 10 |};
              error := None |} ]
    /\ failures (responses d) = [MissingCredential "anthropic"]
    /\ events d = [CallProvider "openai"; NetworkCall Samples.openai_request].
Proof. eexists. repeat split; reflexivity. Qed.

(** The dispatch never looks at the name of the error a call failed with. *)
Lemma attempt_without_error_names options browser message p apiKey :
  attempt options (without_error_names browser) message p apiKey
  = attempt options browser message p apiKey.
Proof.
  unfold attempt, callProvider.
  change (providerConfigs (without_error_names browser) p) with (providerConfigs browser p).
  destruct (providerConfigs browser p) as [config|]; [|done].
  simpl. by destruct (post browser _) as [e|? ? ? ?|[e|reply]].
Qed.

(** C6, the code at an aborted call.  The [catch] clause around the call
    to a provider keeps the message of what was thrown and nothing else:
    a dispatch in which calls are aborted by the signal of the caller
    returns what it returns when the same calls fail with plain errors of
    the same message.  The outcome of the aborted call is the outcome of a
    provider failure with that message, and the error state of the hook is
    not set. *)
Theorem cancelled_call_is_a_generic_failure :
  (forall options browser order message providers apiKeys,
      sendMessage options (without_error_names browser) order message providers apiKeys
      = sendMessage options browser order message providers apiKeys)
  /\ sendMessage Samples.quiet
       (Samples.browser (Types.NetworkError (AbortError "The user aborted a request.")))
       [0] "hi" ["openai"] Samples.openai_key
     = Some {| responses := [errorResponse "openai" 120 "The user aborted a request."];
               hook := settled_state None;
               events := [CallProvider "openai"; NetworkCall Samples.openai_request] |}
  /\ sendMessage Samples.quiet
       (Samples.browser (Types.NetworkError (AbortError "The user aborted a request.")))
       [0] "hi" ["openai"] Samples.openai_key
     = sendMessage Samples.quiet
         (Samples.browser (Types.HttpFailure 500 "Internal Server Error" ""
                                             (Some "The user aborted a request.")))
         [0] "hi" ["openai"] Samples.openai_key.
Proof.
  split; [|split; reflexivity].
  intros options browser order message providers apiKeys. unfold sendMessage.
  assert (Hsame : map (dispatch_one options (without_error_names browser) message apiKeys) providers
                  = map (dispatch_one options browser message apiKeys) providers).
  { apply map_ext. intros p. unfold dispatch_one.
    destruct (apiKeys !! p) as [key|]; [|done].
    destruct (String.eqb key ""); [done|]. apply attempt_without_error_names. }
  by rewrite Hsame.
Qed.

End Outcomes.

(* ===================================================================== *)
(** * Further properties *)
(* ===================================================================== *)

Set Warnings "-clear-no-such-hyp".

(** ** The registry and its sources *)

Section RegistryMore.
Import Js Types Sources Spec.

(** X1. [getDataSource] resolves exactly the ids ["census"], ["fred"] and
    ["worldbank"], each to a source of that id; any other id gives
    [null], whatever the credentials. *)
Theorem getDataSource_resolves_known_ids w sourceId apiKeys :
  match getDataSource w sourceId apiKeys with
  | Some source => ds_id source = sourceId /\ sourceId ∈ ["census"; "fred"; "worldbank"]
  | None => sourceId ∉ ["census"; "fred"; "worldbank"]
  end.
Proof.
  unfold getDataSource, getDataSource_in, DATA_SOURCES. cbn [List.find c_id getInstance].
  destruct (String.eqb_spec "census" sourceId) as [<-|Hcensus]; [split; [done|set_solver]|].
  destruct (String.eqb_spec "fred" sourceId) as [<-|Hfred]; [split; [done|set_solver]|].
  destruct (String.eqb_spec "worldbank" sourceId) as [<-|Hworldbank]; [split; [done|set_solver]|].
  intros Hin. repeat (apply elem_of_cons in Hin as [->|Hin]; [congruence|]). inversion Hin.
Qed.

Lemma searchAllSources_three_sources_witness :
  exists census fred worldbank,
    Census.search "gdp" = Fulfilled census
    /\ Fred.search {| Fred.apiKey := default "" ((∅ : gmap string string) !! "fred") |}
                   (Fred.search_api (fred_api Samples.world)) "gdp" = Fulfilled fred
    /\ WorldBank.search (WorldBank.search_api (worldbank_api Samples.world)) "gdp"
       = Fulfilled worldbank
    /\ searchAllSources Samples.world [1; 2; 0] "gdp" ∅
       = Some (Fulfilled (census ++ fred ++ worldbank)).
Proof. apply (searchAllSources_three_sources Samples.world [1; 2; 0] "gdp" ∅). reflexivity. Defined.

(** X3. [getAllDatasets] uses neither the network nor the credentials: in
    every world it resolves with the four Census datasets, the fifteen
    FRED series and the fifteen World Bank indicators, in that order. *)
Theorem getAllDatasets_is_the_static_catalog w order apiKeys :
  settles_each 3 order = true ->
  getAllDatasets w order apiKeys
  = Some (Fulfilled (Census.CENSUS_DATASETS
                     ++ map Fred.series_info Fred.POPULAR_SERIES
                     ++ map WorldBank.indicator_info WorldBank.POPULAR_INDICATORS))
  /\ length (Census.CENSUS_DATASETS
             ++ map Fred.series_info Fred.POPULAR_SERIES
             ++ map WorldBank.indicator_info WorldBank.POPULAR_INDICATORS) = 34.
Proof.
  intros Hall. split; [|reflexivity].
  unfold getAllDatasets, getAllDatasets_in.
  rewrite allSettled_input_order by done. reflexivity.
Qed.

Lemma getAllDatasets_is_the_static_catalog_witness :
  getAllDatasets Samples.world [2; 1; 0] ∅
  = Some (Fulfilled (Census.CENSUS_DATASETS
                     ++ map Fred.series_info Fred.POPULAR_SERIES
                     ++ map WorldBank.indicator_info WorldBank.POPULAR_INDICATORS)).
Proof.
  apply (getAllDatasets_is_the_static_catalog Samples.world [2; 1; 0] ∅). reflexivity.
Defined.

Lemma census_search_sources query found :
  Census.search query = Fulfilled found -> forall d, d ∈ found -> source d = "census".
Proof.
  unfold Census.search. intros Hsearch d Hin. injection Hsearch as <-.
  apply elem_of_app in Hin as [Hin|Hin].
  - apply list_elem_of_filter in Hin as [_ Hin].
    assert (Hall : Forall (fun d => source d = "census") Census.CENSUS_DATASETS)
      by (repeat constructor).
    by eapply Forall_forall in Hall.
  - apply list_elem_of_fmap in Hin as (entry & -> & _). done.
Qed.

(** X4. For each source of the registry, [search] never rejects, and
    every dataset it returns carries the id of that source: the live
    results as well as the local ones. *)
Theorem search_results_carry_their_source w i config apiKey query :
  DATA_SOURCES w !! i = Some config ->
  exists found,
    search (getInstance config apiKey) query = Fulfilled found
    /\ forall d, d ∈ found -> source d = c_id config.
Proof.
  intros Hconfig.
  destruct i as [|[|[|i]]]; simpl in Hconfig; try discriminate; injection Hconfig as <-; simpl.
  - pose proof (census_search_sources query) as Hsources. unfold Census.search in *.
    eexists. split; [reflexivity|]. by apply Hsources.
  - unfold Fred.search, Fred.local_search.
    destruct (Fred.search_api _ _) as [?|? ? ? ?|[?|body]];
      eexists; (split; [reflexivity|]); intros d Hin;
      apply list_elem_of_fmap in Hin as (x & -> & _); done.
  - unfold WorldBank.search, WorldBank.local_search.
    destruct (WorldBank.search_api _ _) as [?|? ? ? ?|[?|[[data|]]]];
      eexists; (split; [reflexivity|]); intros d Hin;
      apply list_elem_of_fmap in Hin as (x & -> & _); done.
Qed.

Lemma search_results_carry_their_source_witness :
  exists found,
    search (worldBankSource Samples.world) "inflation" = Fulfilled found
    /\ length found = 1
    /\ forall d, d ∈ found -> source d = "worldbank".
Proof.
  destruct (search_results_carry_their_source Samples.world 2 _ None "inflation" eq_refl)
    as (found & Hsearch & Hsource).
  exists found. split; [exact Hsearch|]. split; [|exact Hsource].
  vm_compute in Hsearch. injection Hsearch as <-. reflexivity.
Defined.

End RegistryMore.

(** ** What a fetch gives *)

Section FetchMore.
Import Js Types Sources Spec.



(** X6. For each source of the registry, a fetch that succeeds returns a
    result that names the source and the dataset asked for, is stamped
    with the time of the fetch, and has a freshness and a source URL. *)
Theorem fetch_result_names_its_origin w i config apiKey datasetId params r :
  DATA_SOURCES w !! i = Some config ->
  fetch (getInstance config apiKey) datasetId params = Fulfilled r ->
  r_source r = c_id config
  /\ r_dataset r = datasetId
  /\ fetchedAt (metadata r) = now w
  /\ is_Some (freshness (metadata r))
  /\ is_Some (sourceUrl (metadata r)).
Proof.
  intros Hconfig Hfetch.
  destruct i as [|[|[|i]]]; simpl in Hconfig; try discriminate;
    injection Hconfig as <-; cbn [getInstance fetch Census.instance Fred.instance
                                   worldBankSource WorldBank.instance] in Hfetch.
  - unfold Census.fetch, Census.fetch_failure in Hfetch.
    destruct (census_api _ _) as [?|? ? ? ?|[?|?]]; try discriminate.
    injection Hfetch as <-. simpl. eauto 10.
  - unfold Fred.fetch, Fred.fetch_failure in Hfetch.
    destruct (Fred.observations_api _ _) as [?|? ? ? ?|[?|?]]; try discriminate.
    injection Hfetch as <-. simpl. eauto 10.
  - unfold WorldBank.fetch, WorldBank.fetch_failure in Hfetch.
    destruct (WorldBank.indicator_api _ _) as [?|? ? ? ?|[?|[[[|? ?]|]]]]; try discriminate;
      injection Hfetch as <-; simpl; eauto 10.
Qed.

Lemma fetch_result_names_its_origin_witness :
  exists r,
    Fred.fetch {| Fred.apiKey := "k" |} (Fred.observations_api (fred_api Samples.world))
               (now Samples.world) "GDP" no_params = Fulfilled r
    /\ r_source r = "fred" /\ r_dataset r = "GDP"
    /\ fetchedAt (metadata r) = now Samples.world
    /\ is_Some (freshness (metadata r))
    /\ is_Some (sourceUrl (metadata r)).
Proof.
  eexists. split; [reflexivity|].
  apply (fetch_result_names_its_origin Samples.world 1 _ (Some "k") "GDP" no_params _
           eq_refl eq_refl).
Defined.





End FetchMore.

(** ** The adapters, one by one *)

Section AdaptersMore.
Import Js Types Sources Spec.

Lemma array_includes_elem (xs : list string) (x : string) :
  array_includes xs x = true <-> x ∈ xs.
Proof.
  unfold array_includes. rewrite existsb_exists. split.
  - intros (y & Hin & Heq). apply String.eqb_eq in Heq as ->. by apply list_elem_of_In.
  - intros Hin. exists x. split; [by apply list_elem_of_In | apply String.eqb_refl].
Qed.

(** X8. The Census request always asks for [NAME]: a list of variables
    that has it is sent as it is, a list that lacks it is sent with [NAME]
    put in front, and without a list the request is for the total
    population and [NAME]. *)
Theorem census_request_always_includes_NAME params :
  "NAME" ∈ Census.request_variables params
  /\ (forall given, p_variables params = Some given -> "NAME" ∈ given ->
        Census.request_variables params = given)
  /\ (forall given, p_variables params = Some given -> "NAME" ∉ given ->
        Census.request_variables params = "NAME" :: given)
  /\ (p_variables params = None ->
        Census.request_variables params = ["B01001_001E"; "NAME"]).
Proof.
  unfold Census.request_variables.
  destruct (p_variables params) as [given|]; simpl.
  - destruct (array_includes given "NAME") eqn:Hincl.
    + apply array_includes_elem in Hincl. repeat split; try done.
      * by intros ? [= <-].
      * by intros ? [= <-] ?.
    + assert ("NAME" ∉ given) by (rewrite <- array_includes_elem; congruence).
      repeat split; try done.
      * set_solver.
      * by intros ? [= <-] ?.
      * by intros ? [= <-].
  - repeat split; try done. set_solver.
Qed.

(** X9. In a FRED result the [value] of every row is a number or [null],
    never a string, and the [seriesId] of every row is the series asked
    for. *)
Theorem fred_values_are_numbers_or_null self http now seriesId params r row :
  Fred.fetch self http now seriesId params = Fulfilled r ->
  row ∈ data r ->
  (row !! "value" = Some VNull \/ exists n, row !! "value" = Some (VNum n))
  /\ row !! "seriesId" = Some (VStr seriesId).
Proof.
  intros Hfetch Hrow.
  destruct (fred_fetch_fulfilled _ _ _ _ _ _ Hfetch) as (body & _ & Hdata & _).
  rewrite Hdata in Hrow. apply list_elem_of_fmap in Hrow as (obs & -> & _).
  unfold Fred.observation_row. split; [|by simplify_map_eq].
  simplify_map_eq. unfold Fred.observation_value.
  destruct (Fred.o_value obs) as [| | | |s| | |]; try (right; eexists; reflexivity).
  destruct (String.eqb s "."); [by left | right; eexists; reflexivity].
Qed.

Lemma fred_values_are_numbers_or_null_witness :
  exists r row,
    Fred.fetch {| Fred.apiKey := "k" |} (Fred.observations_api (fred_api Samples.world)) 0
               "GDP" no_params = Fulfilled r
    /\ data r !! 1 = Some row
    /\ (row !! "value" = Some VNull \/ exists n, row !! "value" = Some (VNum n))
    /\ row !! "seriesId" = Some (VStr "GDP").
Proof.
  do 2 eexists. split; [reflexivity|]. split; [reflexivity|].
  eapply (fred_values_are_numbers_or_null {| Fred.apiKey := "k" |}
            (Fred.observations_api (fred_api Samples.world)) 0 "GDP" no_params);
    [reflexivity | right; left].
Defined.

(** X10. A World Bank result has one row for each item of the reply whose
    value is not [null], in the order of the reply: no row has a [null]
    value, the [year] of every row is a number, and there are never more
    rows than items. *)
Theorem worldbank_rows_are_the_items_with_a_value http now indicatorId params r :
  WorldBank.fetch http now indicatorId params = Fulfilled r ->
  exists reply,
    http (WorldBank.request_url indicatorId params) = HttpSuccess (inr reply)
    /\ data r = map WorldBank.item_row
                    (List.filter WorldBank.has_value (default [] (WorldBank.rawData reply)))
    /\ length (data r) <= length (default [] (WorldBank.rawData reply))
    /\ forall row, row ∈ data r ->
         (exists v, row !! "value" = Some v /\ v <> VNull)
         /\ exists n, row !! "year" = Some (VNum n).
Proof.
  unfold WorldBank.fetch, WorldBank.fetch_failure. intros Hfetch.
  destruct (http _) as [?|? ? ? ?|[?|reply]]; try discriminate.
  exists reply. split; [done|].
  assert (Hdata : data r = map WorldBank.item_row
                    (List.filter WorldBank.has_value (default [] (WorldBank.rawData reply)))).
  { destruct (WorldBank.rawData reply) as [[|item items]|]; by injection Hfetch as <-. }
  split; [done|]. rewrite Hdata. split.
  - rewrite length_map. apply filter_length_le.
  - intros row Hrow. apply list_elem_of_fmap in Hrow as (item & -> & Hitem).
    apply list_elem_of_In, filter_In in Hitem as [_ Hvalue].
    unfold WorldBank.item_row. split; [|eexists; by simplify_map_eq].
    exists (WorldBank.value item). split; [by simplify_map_eq|].
    unfold WorldBank.has_value in Hvalue. by destruct (WorldBank.value item).
Qed.

End AdaptersMore.

(** ** The convenience queries *)

Section QueriesMore.
Import Js Types Sources Spec Queries.

Lemma worldbank_rows_are_the_items_with_a_value_witness :
  exists r,
    WorldBank.fetch MoreSamples.population_api 0 "SP.POP.TOTL" no_params = Fulfilled r
    /\ length (data r) = 1
    /\ forall row, row ∈ data r ->
         (exists v, row !! "value" = Some v /\ v <> VNull)
         /\ exists n, row !! "year" = Some (VNum n).
Proof.
  eexists. split; [reflexivity|]. split; [reflexivity|].
  destruct (worldbank_rows_are_the_items_with_a_value MoreSamples.population_api 0
              "SP.POP.TOTL" no_params _ eq_refl) as (reply & _ & _ & _ & Hrows).
  exact Hrows.
Defined.

Lemma append_assoc (a b c : string) : (a +:+ b) +:+ c = a +:+ (b +:+ c).
Proof.
  induction a as [|x a IH]; [done|].
  change (String x ((a +:+ b) +:+ c) = String x (a +:+ (b +:+ c))). by f_equal.
Qed.

Lemma append_empty (a : string) : a +:+ "" = a.
Proof.
  induction a as [|x a IH]; [done|]. change (String x (a +:+ "") = String x a). by f_equal.
Qed.

(** Percent encoding goes character by character. *)
Lemma encode_with_append unreserved plus (a b : string) :
  encode_with unreserved plus (a +:+ b)
  = encode_with unreserved plus a +:+ encode_with unreserved plus b.
Proof.
  induction a as [|c a IH]; [done|].
  change (String c a +:+ b) with (String c (a +:+ b)).
  cbn [encode_with]. rewrite IH. symmetry. apply append_assoc.
Qed.

Lemma getCountyData_request_url self stateCode variables year :
  Census.request_url self "acs/acs5"
    (query_params (Some variables) (Some ("county:*&in=state:" +:+ stateCode))
                  (Some (default 2022%Z year)))
  = "https://api.census.gov/data/"
    +:+ pretty (match year with Some y => if (y =? 0)%Z then 2022%Z else y | None => 2022%Z end)
    +:+ "/acs/acs5?get="
    +:+ form_encode (join "," (if array_includes variables "NAME" then variables
                               else "NAME" :: variables))
    +:+ "&for=county%3A*%26in%3Dstate%3A" +:+ form_encode stateCode
    +:+ (if Census.has_key self then "&key=" +:+ form_encode (Census.key_or_empty self) else "").
Proof.
  unfold Census.request_url, Census.year_or_default, Census.geography_or_default,
    Census.request_variables, query_params.
  cbn [p_year p_geography p_variables fmap option_fmap option_map default].
  change (array_includes (Datatypes.id variables) "NAME") with (array_includes variables "NAME").
  change (Datatypes.id variables) with variables.
  replace ("county:*&in=state:" +:+ stateCode =? "")%string with false by reflexivity.
  assert (Hyear : Census.year_string
                    (if (default 2022 year =? 0)%Z then inl 2022%Z else inl (default 2022%Z year))
                  = pretty (match year with
                            | Some y => if (y =? 0)%Z then 2022%Z else y
                            | None => 2022%Z
                            end)).
  { destruct year as [y|]; simpl; [by destruct (y =? 0)%Z | done]. }
  rewrite Hyear. unfold href, serialize_params, join.
  destruct (Census.has_key self); cbn [app map String.concat fst snd];
    unfold form_encode; rewrite encode_with_append, ?append_assoc, ?append_empty; reflexivity.
Qed.

(** X11. [getCountyData] makes one request, to the five-year survey of
    the year given (2022 when none or 0 is given), and what it returns
    depends on the answer to that request only.  The state restriction
    [&in=state:...] is not a parameter of its own: it travels
    percent-encoded inside the value of [for]. *)
Theorem getCountyData_puts_the_state_inside_for self now stateCode variables year :
  exists url,
    url = "https://api.census.gov/data/"
          +:+ pretty (match year with
                      | Some y => if (y =? 0)%Z then 2022%Z else y
                      | None => 2022%Z
                      end)
          +:+ "/acs/acs5?get="
          +:+ form_encode (join "," (if array_includes variables "NAME" then variables
                                     else "NAME" :: variables))
          +:+ "&for=county%3A*%26in%3Dstate%3A" +:+ form_encode stateCode
          +:+ (if Census.has_key self
               then "&key=" +:+ form_encode (Census.key_or_empty self) else "")
    /\ forall http1 http2 : string -> FetchResult Census.Table,
         http1 url = http2 url ->
         getCountyData self http1 now stateCode variables year
         = getCountyData self http2 now stateCode variables year.
Proof.
  eexists. split; [reflexivity|]. intros http1 http2 Hsame.
  unfold getCountyData, Census.fetch.
  rewrite getCountyData_request_url. by rewrite Hsame.
Qed.

Example getCountyData_california :
  Census.request_url {| Census.apiKey := None |} "acs/acs5"
    (query_params (Some ["B01001_001E"]) (Some ("county:*&in=state:" +:+ "06")) (Some 2021%Z))
  = "https://api.census.gov/data/2021/acs/acs5?get=NAME%2CB01001_001E&for=county%3A*%26in%3Dstate%3A06".
Proof. reflexivity. Qed.

Lemma fulfilled_results_of_map {A B} (f : A -> Settled B) (xs : list A) :
  fulfilled_results (map f xs) = omap (fun x => fulfilled_value (f x)) xs.
Proof.
  unfold fulfilled_results. induction xs as [|x xs IH]; [done|].
  cbn [map omap list_omap]. by rewrite IH.
Qed.

(** The datasets of the results kept are the ids whose fetch fulfilled. *)
Lemma kept_datasets (f : string -> Settled DataResult) (ids : list string) :
  (forall id r, f id = Fulfilled r -> r_dataset r = id) ->
  map r_dataset (omap (fun id => fulfilled_value (f id)) ids)
  = List.filter (fun id => is_fulfilled (f id)) ids.
Proof.
  intros Hdataset. induction ids as [|id ids IH]; [done|].
  cbn [omap list_omap List.filter]. specialize (Hdataset id).
  destruct (f id) as [r|]; simpl; [|done].
  rewrite IH. f_equal. by apply Hdataset.
Qed.

Lemma fred_fetch_dataset self http now id params r :
  Fred.fetch self http now id params = Fulfilled r -> r_dataset r = id.
Proof.
  unfold Fred.fetch, Fred.fetch_failure.
  destruct (http _) as [?|? ? ? ?|[?|?]]; intros Hr; try discriminate. by injection Hr as <-.
Qed.

Lemma worldbank_fetch_dataset http now id params r :
  WorldBank.fetch http now id params = Fulfilled r -> r_dataset r = id.
Proof.
  unfold WorldBank.fetch, WorldBank.fetch_failure.
  destruct (http _) as [?|? ? ? ?|[?|[[[|? ?]|]]]]; intros Hr; try discriminate;
    by injection Hr as <-.
Qed.

(** X12. [getMultipleSeries] never rejects: it resolves with the results
    of the series whose fetch succeeded, in the order of the ids given,
    and says nothing of the series whose fetch failed. *)
Theorem getMultipleSeries_keeps_what_succeeded self http now order seriesIds startYear :
  settles_each (length seriesIds) order = true ->
  exists results,
    getMultipleSeries self http now order seriesIds startYear = Some (Fulfilled results)
    /\ map r_dataset results
       = List.filter
           (fun id => is_fulfilled (Fred.fetch self http now id
                                               (query_params None None startYear)))
           seriesIds
    /\ forall r, r ∈ results <->
         exists id, id ∈ seriesIds
                    /\ Fred.fetch self http now id (query_params None None startYear)
                       = Fulfilled r.
Proof.
  intros Hall. unfold getMultipleSeries.
  rewrite allSettled_input_order by (by rewrite length_map).
  rewrite fulfilled_results_of_map. eexists. split; [reflexivity|]. split.
  - apply (kept_datasets
             (fun id => Fred.fetch self http now id (query_params None None startYear))).
    intros id r. apply fred_fetch_dataset.
  - intros r. rewrite list_elem_of_omap. split; intros (id & Hid & Hfetch); exists id;
      (split; [done|]); destruct (Fred.fetch _ _ _ _ _); simpl in *; congruence.
Qed.

Lemma getMultipleSeries_keeps_what_succeeded_witness :
  exists results,
    getMultipleSeries {| Fred.apiKey := "k" |} MoreSamples.gdp_only 0 [2; 0; 1]
                      ["UNRATE"; "GDP"; "NOPE"] None = Some (Fulfilled results)
    /\ map r_dataset results = ["GDP"].
Proof.
  destruct (getMultipleSeries_keeps_what_succeeded {| Fred.apiKey := "k" |}
              MoreSamples.gdp_only 0 [2; 0; 1] ["UNRATE"; "GDP"; "NOPE"] None eq_refl)
    as (results & Hresults & Hdatasets & _).
  exists results. split; [exact Hresults|]. rewrite Hdatasets. reflexivity.
Defined.

(** X13. [getCountryProfile] never rejects: it resolves with at most six
    results, those of the six profile indicators whose fetch succeeded,
    in the fixed order of the indicators. *)
Theorem getCountryProfile_keeps_what_succeeded http now order countryCode year :
  settles_each 6 order = true ->
  exists results,
    getCountryProfile http now order countryCode year = Some (Fulfilled results)
    /\ map r_dataset results
       = List.filter
           (fun id => is_fulfilled (WorldBank.fetch http now id
                                      (query_params None (Some countryCode) year)))
           profile_indicators
    /\ length results <= 6.
Proof.
  intros Hall. unfold getCountryProfile.
  rewrite allSettled_input_order by done.
  rewrite fulfilled_results_of_map. eexists. split; [reflexivity|].
  assert (Hdatasets :
    map r_dataset
      (omap (fun id => fulfilled_value (WorldBank.fetch http now id
                                          (query_params None (Some countryCode) year)))
            profile_indicators)
    = List.filter
        (fun id => is_fulfilled (WorldBank.fetch http now id
                                   (query_params None (Some countryCode) year)))
        profile_indicators).
  { apply (kept_datasets
             (fun id => WorldBank.fetch http now id (query_params None (Some countryCode) year))).
    intros id r. apply worldbank_fetch_dataset. }
  split; [exact Hdatasets|].
  rewrite <- (length_map r_dataset), Hdatasets.
  etrans; [apply filter_length_le|]. done.
Qed.

Lemma getCountryProfile_keeps_what_succeeded_witness :
  exists results,
    getCountryProfile MoreSamples.population_api 0 [5; 4; 3; 2; 1; 0] "FRA" None
    = Some (Fulfilled results)
    /\ map r_dataset results = profile_indicators.
Proof.
  destruct (getCountryProfile_keeps_what_succeeded MoreSamples.population_api 0
              [5; 4; 3; 2; 1; 0] "FRA" None eq_refl)
    as (results & Hresults & Hdatasets & _).
  exists results. split; [exact Hresults|]. rewrite Hdatasets. reflexivity.
Defined.

End QueriesMore.

(** ** The validator *)

Section ValidatorMore.
Import Js Types Sources Spec.

Lemma both_issue {A B} (a : Parsed A) (b : Parsed B) :
  a <> inl [] -> b <> inl [] -> both a b <> inl [].
Proof. destruct a as [[|? ?]|?], b as [[|? ?]|?]; simpl; congruence. Qed.

Lemma parsed_map_issue {A B} (f : A -> B) (a : Parsed A) :
  a <> inl [] -> parsed_map f a <> inl [].
Proof. destruct a as [[|? ?]|?]; simpl; congruence. Qed.

Lemma z_string_issue at_path v : z_string at_path v <> inl [].
Proof. by destruct v. Qed.

Lemma z_number_issue at_path v : z_number at_path v <> inl [].
Proof. destruct v as [| | |n| | | |]; try done. simpl. by destruct (isNaN n). Qed.

Lemma z_date_issue at_path v : z_date at_path v <> inl [].
Proof. destruct v as [| | | | |[t|]| |]; done. Qed.

Lemma z_record_issue at_path v : z_record at_path v <> inl [].
Proof. by destruct v. Qed.

Lemma z_items_issue {A} (item : list PathItem -> Value -> Parsed A) at_path vs :
  (forall p v, item p v <> inl []) -> forall i, z_items item at_path i vs <> inl [].
Proof.
  intros Hitem. induction vs as [|v vs IH]; intros i; [done|].
  cbn [z_items]. apply parsed_map_issue, both_issue; [apply Hitem | apply IH].
Qed.

Lemma z_array_issue {A} (item : list PathItem -> Value -> Parsed A) at_path v :
  (forall p v, item p v <> inl []) -> z_array item at_path v <> inl [].
Proof. intros Hitem. destruct v; try done. by apply z_items_issue. Qed.

Lemma z_optional_issue {A} (schema : list PathItem -> Value -> Parsed A) at_path v :
  (forall p v, schema p v <> inl []) -> z_optional schema at_path v <> inl [].
Proof. intros Hschema. destruct v; try done; apply parsed_map_issue, Hschema. Qed.

Lemma z_freshness_issue at_path v : z_freshness at_path v <> inl [].
Proof.
  destruct v as [| | | |s| | |]; try done. unfold z_freshness.
  repeat (destruct (String.eqb s _); [done|]). done.
Qed.

Lemma z_metadata_issue at_path v : z_metadata at_path v <> inl [].
Proof.
  destruct v; try done. unfold z_metadata.
  apply parsed_map_issue. repeat apply both_issue.
  - apply z_date_issue.
  - apply z_number_issue.
  - apply z_array_issue, z_string_issue.
  - apply z_optional_issue, z_freshness_issue.
  - apply z_optional_issue, z_string_issue.
Qed.

(** A candidate the schema refuses is refused for a reason. *)
Lemma DataResultSchema_issue v : DataResultSchema v <> inl [].
Proof.
  destruct v; try done. unfold DataResultSchema.
  apply parsed_map_issue. repeat apply both_issue.
  - apply z_string_issue.
  - apply z_string_issue.
  - apply z_array_issue, z_record_issue.
  - apply z_metadata_issue.
Qed.

(** X14. The verdict of [validateDataResult] on any candidate: it is
    valid exactly when the list of errors is empty, and exactly when the
    schema accepts it, the parsed result then being returned; an invalid
    candidate gets at least one error, no warning and no data. *)
Theorem verdict_of_the_validator now candidate :
  (valid (validateDataResult now candidate) = true
   <-> errors (validateDataResult now candidate) = [])
  /\ (valid (validateDataResult now candidate) = true
      <-> exists result, DataResultSchema candidate = inr result
                         /\ v_data (validateDataResult now candidate) = Some result)
  /\ (valid (validateDataResult now candidate) = false ->
      errors (validateDataResult now candidate) <> []
      /\ warnings (validateDataResult now candidate) = []
      /\ v_data (validateDataResult now candidate) = None).
Proof.
  unfold validateDataResult. pose proof (DataResultSchema_issue candidate) as Hissue.
  destruct (DataResultSchema candidate) as [[|issue issues]|result]; [done| |]; simpl.
  - split; [done|]. split; [|done]. split; [done|]. by intros (? & ? & ?).
  - split; [done|]. split; [|done]. split; [|done]. intros _. by exists result.
Qed.




(** X16. A structurally valid candidate gets the warning
    [Query returned no results] exactly when it has no rows, and that
    warning then comes last, after the freshness warning if there is
    one. *)
Theorem empty_warning_iff_no_rows now candidate result :
  DataResultSchema candidate = inr result ->
  (empty_warning ∈ warnings (validateDataResult now candidate) <-> data result = [])
  /\ (data result = [] ->
      last (warnings (validateDataResult now candidate)) = Some empty_warning).
Proof.
  intros Hparse. rewrite (warnings_valid _ _ _ Hparse).
  destruct (data result) as [|row rows]; simpl.
  - split; [|by rewrite last_snoc]. split; [done|]. intros _.
    apply elem_of_app. right. apply list_elem_of_here.
  - split; [|done]. split; [|done]. rewrite app_nil_r. intros Hin.
    destruct (Qlt_le_dec _ _); [|by inversion Hin].
    apply list_elem_of_singleton in Hin. discriminate.
Qed.

Lemma empty_warning_iff_no_rows_witness :
  warnings (validateDataResult (31 * MS_PER_DAY) (Samples.candidate 0 []))
  = ["Data is 31 days old"; "Query returned no results"]
  /\ last (warnings (validateDataResult (31 * MS_PER_DAY) (Samples.candidate 0 [])))
     = Some empty_warning.
Proof.
  split; [reflexivity|].
  apply (empty_warning_iff_no_rows (31 * MS_PER_DAY) (Samples.candidate 0 [])
           (Samples.parsed_candidate 0 []) eq_refl).
  reflexivity.
Defined.










End ValidatorMore.

(** ** Searching *)

Section SearchMore.
Import Js Types Sources Spec.


(** The id [acs/acs5] is not found by the query [acs5]. *)
Example census_search_ignores_ids : Census.search "acs5" = Fulfilled [].
Proof. reflexivity. Qed.

(** X20. When the live search endpoint answers, the answer is used as
    it is, one dataset per entry in the order of the answer, and the
    local catalog is not consulted, even when the answer has no entry.
    The datasets of a live FRED answer carry a date of last update,
    those of a live World Bank answer carry none. *)
Theorem live_search_results_are_used_as_they_are query :
  (forall (self : Fred.FredDataSource) (http : string -> FetchResult Fred.SearchReply) body,
      http (Fred.search_url self query) = HttpSuccess (inr body) ->
      exists found,
        Fred.search self http query = Fulfilled found
        /\ map id found = map Fred.s_id (default [] (Fred.seriess body))
        /\ map name found = map Fred.title (default [] (Fred.seriess body))
        /\ forall d, d ∈ found -> is_Some (lastUpdated d))
  /\ (forall (http : string -> FetchResult WorldBank.SearchReply) entries,
         http (WorldBank.search_url query)
         = HttpSuccess (inr {| WorldBank.indicators := Some entries |}) ->
         exists found,
           WorldBank.search http query = Fulfilled found
           /\ map id found = map WorldBank.i_id entries
           /\ map name found = map WorldBank.i_name entries
           /\ forall d, d ∈ found -> lastUpdated d = None).
Proof.
  split.
  - intros self http body Hanswer. unfold Fred.search. rewrite Hanswer.
    eexists. split; [reflexivity|]. rewrite !map_map. simpl.
    split; [done|]. split; [done|]. intros d Hin.
    apply list_elem_of_fmap in Hin as (series & -> & _). by eexists.
  - intros http entries Hanswer. unfold WorldBank.search. rewrite Hanswer.
    eexists. split; [reflexivity|]. rewrite !map_map. simpl.
    split; [done|]. split; [done|]. intros d Hin.
    by apply list_elem_of_fmap in Hin as (ind & -> & _).
Qed.

Lemma live_search_results_are_used_as_they_are_witness :
  exists found,
    Fred.search {| Fred.apiKey := "k" |}
                (fun _ => HttpSuccess (inr MoreSamples.fred_search_reply)) "gdp"
    = Fulfilled found
    /\ map id found = ["GDPC1"].
Proof.
  destruct (live_search_results_are_used_as_they_are "gdp") as [Hfred _].
  destruct (Hfred {| Fred.apiKey := "k" |}
                  (fun _ => HttpSuccess (inr MoreSamples.fred_search_reply))
                  MoreSamples.fred_search_reply eq_refl)
    as (found & Hsearch & Hids & _).
  exists found. split; [exact Hsearch | exact Hids].
Defined.
End SearchMore.

(** ** The chat hook and its caller *)

Section ChatMore.
Import Js Chat Spec.

(** What [sendMessage] leaves behind, in full. *)
Lemma sendMessage_trace options browser order message providers apiKeys :
  settles_each (length providers) order = true ->
  exists d,
    sendMessage options browser order message providers apiKeys = Some d
    /\ responses d
       = omap (fun p => fulfilled_value (dispatch_one options browser message apiKeys p).2)
              providers
    /\ events d
       = concat (map (fun p => (dispatch_one options browser message apiKeys p).1) providers)
         ++ match onComplete options with Some _ => [OnComplete] | None => [] end
    /\ isLoading (hook d) = false
    /\ abortController (hook d) = false
    /\ (is_Some (hook_error (hook d)) <-> exists t, onComplete options = Some (Throws t)).
Proof.
  intros Hall. unfold sendMessage.
  rewrite allSettled_input_order by (by rewrite !length_map).
  assert (Hresponses :
    omap fulfilled_value (map snd (map (dispatch_one options browser message apiKeys) providers))
    = omap (fun p => fulfilled_value (dispatch_one options browser message apiKeys p).2) providers).
  { clear Hall. induction providers as [|p providers IH]; [done|].
    cbn [map omap list_omap]. by rewrite IH. }
  assert (Hevents :
    map fst (map (dispatch_one options browser message apiKeys) providers)
    = map (fun p => (dispatch_one options browser message apiKeys p).1) providers)
    by apply map_map.
  cbv zeta. rewrite Hresponses, Hevents.
  destruct (onComplete options) as [[|err]|]; eexists; (split; [reflexivity|]);
    (split; [reflexivity|]); simpl; (split; [done|]); (split; [done|]); (split; [done|]).
  - split; [by intros [? ?] | by intros [? ?]].
  - split; [by eexists | by eexists].
  - split; [by intros [? ?] | by intros [? ?]].
Qed.

Lemma known_providers browser p :
  is_Some (providerConfigs browser p) <-> p ∈ ["openai"; "anthropic"; "openrouter"; "grok"].
Proof.
  unfold providerConfigs.
  destruct (String.eqb_spec p "openai") as [->|?]; [split; [set_solver|by eexists]|].
  destruct (String.eqb_spec p "anthropic") as [->|?]; [split; [set_solver|by eexists]|].
  destruct (String.eqb_spec p "openrouter") as [->|?]; [split; [set_solver|by eexists]|].
  destruct (String.eqb_spec p "grok") as [->|?]; [split; [set_solver|by eexists]|].
  split; [by intros [? ?]|]. intros Hin.
  repeat (apply elem_of_cons in Hin as [->|Hin]; [congruence|]). inversion Hin.
Qed.

(** The requests a dispatch for one provider makes. *)
Lemma dispatch_one_requests options browser message apiKeys p request :
  NetworkCall request ∈ (dispatch_one options browser message apiKeys p).1 ->
  exists key config,
    apiKeys !! p = Some key /\ key <> ""
    /\ providerConfigs browser p = Some config
    /\ request = {| endpoint := c_endpoint config; headers := c_headers config key;
                    body := c_body config message |}.
Proof.
  unfold dispatch_one. destruct (apiKeys !! p) as [key|] eqn:Hkey;
    [|intros Hin; apply missing_key_events in Hin; discriminate].
  destruct (String.eqb_spec key "") as [->|Hkey'];
    [intros Hin; apply missing_key_events in Hin; discriminate|].
  intros Hin. exists key. unfold attempt, callProvider in Hin.
  assert (Hreport : forall err (P : Prop),
            NetworkCall request ∈ (caught options browser p err).1 -> P).
  { intros err P H. unfold caught in H. apply report_error_events in H. discriminate. }
  destruct (providerConfigs browser p) as [config|]; [exists config; do 3 (split; [done|])|].
  - destruct (post browser _) as [e|? ? ? ?|[e|data]];
      [| | |destruct (onResponse options) as [callback|];
            [destruct (callback _ _ _) as [|err]|]];
      try (destruct (caught _ _ _ _) as [reported settled] eqn:Hc);
      simpl in Hin;
      repeat (apply elem_of_cons in Hin as [Hin|Hin]; [first [discriminate | by injection Hin]|]);
      first [by inversion Hin | eapply Hreport; by rewrite Hc].
  - destruct (caught _ _ _ _) as [reported settled] eqn:Hc. simpl in Hin.
    apply elem_of_cons in Hin as [Hin|Hin]; [discriminate|].
    eapply Hreport. by rewrite Hc.
Qed.

(** X21. Every request [sendMessage] puts on the network is the request
    of one of the providers asked for: it goes to that provider's
    endpoint, carries the prompt in its body, and its headers are built
    from that provider's own non-empty credential and from no other. *)
Theorem requests_go_to_the_providers_own_endpoint
    options browser order message providers apiKeys :
  settles_each (length providers) order = true ->
  exists d,
    sendMessage options browser order message providers apiKeys = Some d
    /\ forall request, NetworkCall request ∈ events d ->
         exists p key config,
           p ∈ providers /\ apiKeys !! p = Some key /\ key <> ""
           /\ providerConfigs browser p = Some config
           /\ request = {| endpoint := c_endpoint config; headers := c_headers config key;
                           body := c_body config message |}.
Proof.
  intros Hall.
  destruct (sendMessage_trace options browser order message providers apiKeys Hall)
    as (d & Hd & _ & Hevents & _).
  exists d. split; [exact Hd|]. intros request Hin. rewrite Hevents in Hin.
  apply elem_of_app in Hin as [Hin|Hin].
  - apply list_elem_of_In, in_concat in Hin as (es & Hes & He).
    apply in_map_iff in Hes as (p & <- & Hp).
    apply list_elem_of_In, dispatch_one_requests in He as (key & config & ?).
    exists p, key, config. split; [by apply list_elem_of_In | done].
  - destruct (onComplete options); [|by inversion Hin].
    apply list_elem_of_singleton in Hin. discriminate.
Qed.

Lemma requests_go_to_the_providers_own_endpoint_witness :
  exists d,
    sendMessage Samples.quiet (Samples.browser (Types.HttpSuccess (inr Samples.hello))) [0]
                "hi" ["openai"] Samples.openai_key = Some d
    /\ NetworkCall Samples.openai_request ∈ events d
    /\ forall request, NetworkCall request ∈ events d ->
         exists p key config,
           p ∈ ["openai"] /\ Samples.openai_key !! p = Some key /\ key <> ""
           /\ providerConfigs (Samples.browser (Types.HttpSuccess (inr Samples.hello))) p
              = Some config
           /\ request = {| endpoint := c_endpoint config; headers := c_headers config key;
                           body := c_body config "hi" |}.
Proof.
  destruct (requests_go_to_the_providers_own_endpoint Samples.quiet
              (Samples.browser (Types.HttpSuccess (inr Samples.hello))) [0]
              "hi" ["openai"] Samples.openai_key eq_refl) as (d & Hd & Hrequests).
  exists d. split; [exact Hd|]. split; [|exact Hrequests].
  vm_compute in Hd. injection Hd as <-. simpl. set_solver.
Defined.


Lemma report_error_outcome options outcome message r :
  (report_error options outcome message).2 = Fulfilled r -> r = outcome.
Proof.
  unfold report_error. destruct (onError options) as [callback|]; simpl.
  - destruct (callback _ _); [congruence|discriminate].
  - congruence.
Qed.

Lemma known_provider_named browser p : is_Some (providerConfigs browser p) -> p <> "".
Proof.
  intros Hknown%known_providers ->.
  repeat (apply elem_of_cons in Hknown as [?|Hknown]; [discriminate|]). inversion Hknown.
Qed.

Lemma string_or_named x fallback : fallback <> "" -> string_or x fallback <> "".
Proof.
  intros Hfallback. unfold string_or. destruct x as [s|]; [|done].
  by destruct (String.eqb_spec s "").
Qed.

(** What the promise of one provider fulfils with. *)
Lemma dispatch_one_outcome options browser message apiKeys p r :
  (dispatch_one options browser message apiKeys p).2 = Fulfilled r ->
  (error r = None
   /\ providerId r = p
   /\ is_Some (providerConfigs browser p)
   /\ no_credential apiKeys p = false
   /\ cost (metadata r) = calculateCost p (tokensUsed (metadata r))
   /\ model (metadata r) <> ""
   /\ responseTime (metadata r) = elapsed browser p)
  \/ (exists time reason, r = errorResponse p time reason).
Proof.
  assert (Hcaught : forall err, (caught options browser p err).2 = Fulfilled r ->
            exists time reason, r = errorResponse p time reason).
  { intros err H. apply report_error_outcome in H. by do 2 eexists. }
  assert (Hmissing : (missing_key options p).2 = Fulfilled r ->
            exists time reason, r = errorResponse p time reason).
  { intros H. apply report_error_outcome in H. by do 2 eexists. }
  unfold dispatch_one, no_credential. destruct (apiKeys !! p) as [key|]; [|right; tauto].
  destruct (String.eqb key ""); [right; tauto|].
  unfold attempt, callProvider.
  destruct (providerConfigs browser p) as [config|] eqn:Hconfig.
  - destruct (post browser _) as [e|? ? ? ?|[e|data]];
      [| | |destruct (onResponse options) as [callback|];
            [destruct (callback _ _ _) as [|err]|]];
      try (destruct (caught _ _ _ _) as [reported settled] eqn:Hc;
           simpl; intros ->; right; eapply Hcaught; by rewrite Hc);
      simpl; intros Hr; injection Hr as <-; left; simpl;
      (split; [done|]); (split; [done|]); (split; [by eexists|]); (split; [done|]);
      (split; [done|]); (split; [|done]);
      apply string_or_named, (known_provider_named browser); rewrite Hconfig; by eexists.
  - destruct (caught _ _ _ _) as [reported settled] eqn:Hc.
    simpl. intros ->. right. eapply Hcaught. by rewrite Hc.
Qed.

(** X23. Every outcome [sendMessage] returns is for a provider asked
    for, and is of one of two shapes.  A success has no error, comes from
    one of the four known providers with a credential, names a model, and
    its cost is [calculateCost] of its provider and token count.  A
    failure has an error message, the empty response, no tokens, no cost
    and no model. *)
Theorem outcomes_are_successes_or_blank_failures
    options browser order message providers apiKeys :
  settles_each (length providers) order = true ->
  exists d,
    sendMessage options browser order message providers apiKeys = Some d
    /\ forall r, r ∈ responses d ->
         providerId r ∈ providers
         /\ ((error r = None
              /\ providerId r ∈ ["openai"; "anthropic"; "openrouter"; "grok"]
              /\ no_credential apiKeys (providerId r) = false
              /\ cost (metadata r) = calculateCost (providerId r) (tokensUsed (metadata r))
              /\ model (metadata r) <> ""
              /\ responseTime (metadata r) = elapsed browser (providerId r))
             \/ (is_Some (error r)
                 /\ response r = ""
                 /\ tokensUsed (metadata r) = 0%Z
                 /\ cost (metadata r) = 0%Q
                 /\ model (metadata r) = "")).
Proof.
  intros Hall.
  destruct (sendMessage_trace options browser order message providers apiKeys Hall)
    as (d & Hd & Hresponses & _).
  exists d. split; [exact Hd|]. intros r Hin. rewrite Hresponses in Hin.
  apply list_elem_of_omap in Hin as (p & Hp & Hr).
  destruct (dispatch_one options browser message apiKeys p).2 as [r'|] eqn:Hsettled;
    [|discriminate].
  injection Hr as ->.
  apply dispatch_one_outcome in Hsettled
    as [(Herror & <- & Hknown & Hkey & Hcost & Hmodel & Htime)|(time & reason & ->)].
  - split; [done|]. left. by rewrite <- known_providers.
  - split; [done|]. right. simpl. split; [by eexists | done].
Qed.

Lemma outcomes_are_successes_or_blank_failures_witness :
  exists d,
    sendMessage Samples.quiet (Samples.browser (Types.HttpSuccess (inr Samples.hello))) [1; 0]
                "hi" ["openai"; "anthropic"] Samples.openai_key = Some d
    /\ map is_failure (responses d) = [false; true].
Proof.
  destruct (outcomes_are_successes_or_blank_failures Samples.quiet
              (Samples.browser (Types.HttpSuccess (inr Samples.hello))) [1; 0]
              "hi" ["openai"; "anthropic"] Samples.openai_key eq_refl) as (d & Hd & _).
  exists d. split; [exact Hd|]. vm_compute in Hd. injection Hd as <-. reflexivity.
Defined.

(** X24. Whatever the callbacks do, the outcomes [sendMessage] returns
    follow the order of the request: their provider ids form the list of
    the providers asked for with some positions left out, so no provider
    gets more outcomes than it has positions in the request. *)
Theorem outcomes_follow_the_request_order options browser order message providers apiKeys :
  settles_each (length providers) order = true ->
  exists d,
    sendMessage options browser order message providers apiKeys = Some d
    /\ map providerId (responses d) `sublist_of` providers.
Proof.
  intros Hall.
  destruct (sendMessage_trace options browser order message providers apiKeys Hall)
    as (d & Hd & Hresponses & _).
  exists d. split; [exact Hd|]. rewrite Hresponses. clear.
  induction providers as [|p providers IH]; [done|].
  cbn [omap list_omap].
  destruct (dispatch_one options browser message apiKeys p).2 as [r|] eqn:Hsettled; simpl.
  - assert (providerId r = p) as ->; [|by apply sublist_skip].
    apply dispatch_one_outcome in Hsettled as [(_ & ? & _)|(? & ? & ->)]; done.
  - by apply sublist_cons.
Qed.

Lemma outcomes_follow_the_request_order_witness :
  exists d,
    sendMessage Samples.throwing (Samples.browser (Types.HttpSuccess (inr Samples.hello)))
                [1; 0] "hi" ["anthropic"; "openai"] Samples.openai_key = Some d
    /\ map providerId (responses d) `sublist_of` ["anthropic"; "openai"].
Proof.
  apply (outcomes_follow_the_request_order Samples.throwing
           (Samples.browser (Types.HttpSuccess (inr Samples.hello)))
           [1; 0] "hi" ["anthropic"; "openai"] Samples.openai_key).
  reflexivity.
Defined.

(** X25. When [sendMessage] is over the hook is neither loading nor
    holding an abort controller, and its error state is set exactly when
    the [onComplete] callback threw: the failures of the providers,
    missing credentials included, never reach it. *)
Theorem provider_failures_leave_no_hook_error options browser order message providers apiKeys :
  settles_each (length providers) order = true ->
  exists d,
    sendMessage options browser order message providers apiKeys = Some d
    /\ isLoading (hook d) = false
    /\ abortController (hook d) = false
    /\ (is_Some (hook_error (hook d)) <-> exists t, onComplete options = Some (Throws t)).
Proof.
  intros Hall.
  destruct (sendMessage_trace options browser order message providers apiKeys Hall)
    as (d & Hd & _ & _ & Hloading & Hcontroller & Herror).
  by exists d.
Qed.

Lemma provider_failures_leave_no_hook_error_witness :
  exists d,
    sendMessage Samples.quiet (Samples.browser (Types.NetworkError Samples.unreachable)) [0]
                "hi" ["openai"] Samples.openai_key = Some d
    /\ isLoading (hook d) = false
    /\ abortController (hook d) = false
    /\ (is_Some (hook_error (hook d))
        <-> exists t, onComplete Samples.quiet = Some (Throws t)).
Proof.
  apply (provider_failures_leave_no_hook_error Samples.quiet
           (Samples.browser (Types.NetworkError Samples.unreachable)) [0]
           "hi" ["openai"] Samples.openai_key).
  reflexivity.
Defined.




(** X26. When a provider answers and the [onResponse] callback throws
    on the answer, the answer is lost: the callback has been called, and
    once [onError] returns the outcome is the blank failure carrying the
    message of what the callback threw. *)
Theorem throwing_onResponse_turns_success_into_failure
    options browser message apiKeys p key config data callback err :
  apiKeys !! p = Some key ->
  key <> "" ->
  providerConfigs browser p = Some config ->
  post browser {| endpoint := c_endpoint config; headers := c_headers config key;
                  body := c_body config message |} = Types.HttpSuccess (inr data) ->
  onResponse options = Some callback ->
  (forall text meta, callback p text meta = Throws err) ->
  OnResponse p ∈ (dispatch_one options browser message apiKeys p).1
  /\ (notified options p (message_of err) = Returns ->
      (dispatch_one options browser message apiKeys p).2
      = Fulfilled (errorResponse p (elapsed browser p) (message_of err))).
Proof.
  intros Hkey Hnonempty Hconfig Hanswer Hcallback Hthrows.
  unfold dispatch_one. rewrite Hkey. destruct (String.eqb_spec key ""); [done|].
  unfold attempt, callProvider. rewrite Hconfig, Hanswer, Hcallback, Hthrows.
  split.
  - destruct (caught _ _ _ _). simpl. set_solver.
  - intros Hreturns.
    pose proof (report_error_returns options
                  (errorResponse p (elapsed browser p) (message_of err))
                  (message_of err) Hreturns) as Hsettled.
    unfold caught. destruct (report_error _ _ _). simpl in *. done.
Qed.

Lemma throwing_onResponse_turns_success_into_failure_witness :
  (dispatch_one {| onResponse := Some (fun _ _ _ => Throws NotError);
                   onError := None; onComplete := None |}
                (Samples.browser (Types.HttpSuccess (inr Samples.hello)))
                "hi" Samples.openai_key "openai").2
  = Fulfilled (errorResponse "openai" 120 "Unknown error").
Proof.
  destruct (throwing_onResponse_turns_success_into_failure
              {| onResponse := Some (fun _ _ _ => Throws NotError);
                 onError := None; onComplete := None |}
              (Samples.browser (Types.HttpSuccess (inr Samples.hello)))
              "hi" Samples.openai_key "openai" "sk-1" _ Samples.hello _ NotError
              eq_refl ltac:(discriminate) eq_refl eq_refl eq_refl
              (fun _ _ => eq_refl)) as [_ Hfails].
  apply Hfails. reflexivity.
Defined.






(** [handleProviderToggle]: switching a provider off removes every
    occurrence of it and keeps the others; switching on a provider that
    was off and then off again gives back the list; switching on a
    provider that is already on lists it twice. *)
Lemma toggling_a_provider activeProviders providerId :
  (providerId ∉ MultiAgentChat.handleProviderToggle activeProviders providerId false)
  /\ (forall other, other <> providerId ->
        other ∈ MultiAgentChat.handleProviderToggle activeProviders providerId false
        <-> other ∈ activeProviders)
  /\ (providerId ∉ activeProviders ->
      MultiAgentChat.handleProviderToggle
        (MultiAgentChat.handleProviderToggle activeProviders providerId true) providerId false
      = activeProviders)
  /\ (providerId ∈ activeProviders ->
      ~ NoDup (MultiAgentChat.handleProviderToggle activeProviders providerId true)).
Proof.
  unfold MultiAgentChat.handleProviderToggle.
  assert (Hfilter : forall q ps,
            q ∈ List.filter (fun id => negb (String.eqb id providerId)) ps
            <-> q ∈ ps /\ q <> providerId).
  { intros q ps. rewrite !list_elem_of_In, filter_In, negb_true_iff.
    destruct (String.eqb_spec q providerId); intuition congruence. }
  split; [|split; [|split]].
  - intros Hin%Hfilter. tauto.
  - intros other Hother. rewrite Hfilter. tauto.
  - intros Hout. rewrite List.filter_app. cbn [List.filter].
    rewrite String.eqb_refl. cbn [negb]. rewrite app_nil_r.
    induction activeProviders as [|q ps IH]; [done|].
    apply not_elem_of_cons in Hout as [Hne Hout]. cbn [List.filter].
    destruct (String.eqb_spec q providerId); [congruence|]. cbn [negb]. f_equal. by apply IH.
  - intros Hin Hnodup. apply NoDup_app in Hnodup as (_ & Hdisjoint & _).
    apply (Hdisjoint providerId Hin). apply list_elem_of_here.
Qed.



End ChatMore.

(** ** The store of the chat *)

Section StoreMore.
Import Js ChatStore.




(** A message added to a new session is gone after switching to that
    very session. *)
Example added_messages_are_lost_on_switching (message : ChatMessage) :
  messages (run [CreateSession 1 1 1 None; AddMessage message]) = [message]
  /\ messages (run [CreateSession 1 1 1 None; AddMessage message; SwitchSession "session-1"])
     = [].
Proof. by split. Qed.
End StoreMore.
